(** * Cobbler's template renderer ([cobbler/templar.py])

    A shallow embedding of [Templar]: the import whitelist check, the
    engine selection of [render], the Cheetah preprocessing of
    [render_cheetah], the Jinja2 wrapper [render_jinja2] and the
    post-filtering of [render] (http_server, [@@token@@] substitution,
    leading whitespace), with the theorems that relate them to the
    written specification.

    Python [str] values are modelled as [string]; a character is read as
    the code point of the same number (0..255).  The two template engines,
    the macro file, the logger and the file system are collaborators: they
    are fields of a [Runtime] record and every theorem holds for all of
    them. *)

From Stdlib Require Import ZArith Ascii String List Bool Lia Permutation.
From Stdlib Require Import Numbers.DecimalString.
From stdpp Require Import base option list gmap strings fin_maps.

Local Open Scope string_scope.
Local Open Scope Z_scope.

(** Concatenation of literals is computed by [simpl] and [cbn]. *)
#[global] Arguments String.append : simpl nomatch.

(** ** Python string primitives *)

Module PyStr.

(** [str.isspace] on one character: the code points below 256 that Python
    treats as whitespace, which are also the ones [\s] matches and
    [str.strip()] removes. *)
Definition isspace (c : ascii) : bool :=
  let n := N_of_ascii c in
  ((9 <=? n) && (n <=? 13) || (28 <=? n) && (n <=? 31)
   || (n =? 32) || (n =? 133) || (n =? 160))%N.

(** [s.startswith(p)] *)
Definition startswith (s p : string) : bool := String.prefix p s.

Fixpoint find_from (sub s : string) (i : Z) : Z :=
  if String.prefix sub s then i
  else match s with
       | EmptyString => -1
       | String _ s' => find_from sub s' (i + 1)
       end.

(** [s.find(sub)]: lowest index of [sub] in [s], or [-1]. *)
Definition find (s sub : string) : Z := find_from sub s 0.

(** Scanner behind [replace]: [skip] counts the characters of an
    occurrence that was just replaced and are still to be dropped. *)
Fixpoint replace_go (old new s : string) (skip : nat) : string :=
  match s with
  | EmptyString => EmptyString
  | String c s' =>
      match skip with
      | S k => replace_go old new s' k
      | O =>
          if String.prefix old s
          then new +:+ replace_go old new s' (String.length old - 1)
          else String c (replace_go old new s' 0)
      end
  end.

Fixpoint intersperse_all (new s : string) : string :=
  match s with
  | EmptyString => EmptyString
  | String c s' => String c (new +:+ intersperse_all new s')
  end.

(** [s.replace(old, new)]: every non-overlapping occurrence, scanning from
    the left; an empty [old] matches between all characters. *)
Definition replace (s old new : string) : string :=
  match old with
  | EmptyString => new +:+ intersperse_all new s
  | String _ _ => replace_go old new s 0
  end.

Definition budget_left (b : option nat) : bool :=
  match b with Some O => false | _ => true end.

Definition budget_dec (b : option nat) : option nat := Nat.pred <$> b.

(** Scanner behind [split]: returns the piece being read and the pieces
    after it; [b] is the number of splits still allowed ([None]: no
    limit). *)
Fixpoint split_go (sep s : string) (skip : nat) (b : option nat)
  : string * list string :=
  match s with
  | EmptyString => (EmptyString, [])
  | String c s' =>
      match skip with
      | S k => split_go sep s' k b
      | O =>
          if budget_left b && String.prefix sep s
          then (EmptyString,
                let r := split_go sep s' (String.length sep - 1) (budget_dec b)
                in r.1 :: r.2)
          else let r := split_go sep s' 0 b in (String c r.1, r.2)
      end
  end.

(** [s.split(sep, maxsplit)] for a non-empty [sep] (every call of the
    module passes a literal one). *)
Definition split_max (s sep : string) (maxsplit : option nat) : list string :=
  let r := split_go sep s 0 maxsplit in r.1 :: r.2.

(** [s.split(sep)] *)
Definition split (s sep : string) : list string := split_max s sep None.

(** [sep.join(l)] *)
Fixpoint join (sep : string) (l : list string) : string :=
  match l with
  | [] => EmptyString
  | [x] => x
  | x :: l' => x +:+ sep +:+ join sep l'
  end.

Fixpoint lstrip_by (p : ascii -> bool) (s : string) : string :=
  match s with
  | EmptyString => EmptyString
  | String c s' => if p c then lstrip_by p s' else s
  end.

Fixpoint rstrip_by (p : ascii -> bool) (s : string) : string :=
  match s with
  | EmptyString => EmptyString
  | String c s' =>
      match rstrip_by p s' with
      | EmptyString => if p c then EmptyString else String c EmptyString
      | r => String c r
      end
  end.

(** [s.lstrip()], [s.strip()] *)
Definition lstrip (s : string) : string := lstrip_by isspace s.
Definition strip (s : string) : string := lstrip_by isspace (rstrip_by isspace s).

Fixpoint mem_char (c : ascii) (chars : string) : bool :=
  match chars with
  | EmptyString => false
  | String d r => Ascii.eqb c d || mem_char c r
  end.

(** [s.strip(chars)]: [chars] is a set of characters, not a prefix. *)
Definition strip_chars (s chars : string) : string :=
  lstrip_by (fun c => mem_char c chars) (rstrip_by (fun c => mem_char c chars) s).

Definition lower_char (c : ascii) : ascii :=
  let n := N_of_ascii c in
  if ((65 <=? n) && (n <=? 90)
      || (192 <=? n) && (n <=? 222) && negb (n =? 215))%N
  then ascii_of_N (n + 32) else c.

(** [s.lower()] *)
Fixpoint lower (s : string) : string :=
  match s with
  | EmptyString => EmptyString
  | String c s' => String (lower_char c) (lower s')
  end.

(** [s[n:]] *)
Fixpoint drop (n : nat) (s : string) : string :=
  match n, s with
  | O, _ => s
  | S k, EmptyString => EmptyString
  | S k, String _ s' => drop k s'
  end.

(** [s[:n]] *)
Fixpoint take (n : nat) (s : string) : string :=
  match n, s with
  | O, _ => EmptyString
  | S k, EmptyString => EmptyString
  | S k, String c s' => String c (take k s')
  end.

(** [str(n)] for an [int]. *)
Definition of_Z (n : Z) : string := NilZero.string_of_int (Z.to_int n).

End PyStr.

(** ** The regular expression [@@[\S]*?@@] *)

Module Regex.

(** After the opening [@@]: the lazy [[\S]*?] takes as few non-space
    characters as it can before a closing [@@]; the result is how many. *)
Fixpoint lazy_close (s : string) : option nat :=
  if String.prefix "@@" s then Some O
  else match s with
       | EmptyString => None
       | String c s' =>
           if PyStr.isspace c then None else S <$> lazy_close s'
       end.

(** The match that starts at the head of [s], if there is one. *)
Definition match_here (s : string) : option string :=
  if String.prefix "@@" s
  then (fun n => PyStr.take (n + 4) s) <$> lazy_close (PyStr.drop 2 s)
  else None.

Fixpoint finditer_go (s : string) (skip : nat) : list string :=
  match s with
  | EmptyString => []
  | String _ s' =>
      match skip with
      | S k => finditer_go s' k
      | O =>
          match match_here s with
          | Some m => m :: finditer_go s' (String.length m - 1)
          | None => finditer_go s' 0
          end
      end
  end.

(** [[m.group() for m in re.finditer(r"@@[\S]*?@@", s, re.MULTILINE)]]:
    the non-overlapping matches from left to right. *)
Definition finditer (s : string) : list string := finditer_go s 0.

End Regex.

(** The newline character, written ["\n"] in the Python source. *)
Definition NL : string := String "010"%char EmptyString.

(** ** Values, dictionaries and the object store *)

(** Python dictionaries are mutable objects: a dictionary lives in the store
    and a value that is a dictionary is a reference to it, so that a copy
    and an alias can be told apart.  The values of a context are strings,
    integers, [None] and dictionaries; floats, lists and other objects are
    left out. *)
Definition loc := positive.

Inductive value :=
| VStr (s : string)
| VInt (n : Z)
| VNone
| VDict (l : loc).

#[global] Instance value_eq_dec : EqDecision value.
Proof. solve_decision. Defined.

(** ** Exceptions, events and the state a call runs in *)

(** The exceptions are those derived from Python's [Exception], which an
    [except Exception] clause catches. *)
Inductive exn :=
| CX (msg : string)                 (* cobbler.cexceptions.CX *)
| KeyError (key : string)
| TypeError (msg : string)
| AttributeError (msg : string)
| IndexError (msg : string)
| Foreign (cls msg : string).       (* raised inside a collaborator *)

#[global] Instance exn_eq_dec : EqDecision exn.
Proof. solve_decision. Defined.

(** What a call does to the outside world, in order. *)
Inductive event :=
| LogWarning (msg : string)
| LogError (msg : string)
| ReadMacros                                   (* open(CHEETAH_MACROS_FILE) *)
| CompileMacros (source : string)              (* CobblerTemplate.compile *)
| CompileTemplate (source : string)            (* CobblerTemplate().compile *)
| RunTemplate                                  (* template(searchList=...) *)
| Jinja2Render (includedir : option string) (source : string)
| MkdirParent (out_path : string)              (* utils.mkdir(dirname(..)) *)
| WriteFile (out_path data : string).

#[global] Instance event_eq_dec : EqDecision event.
Proof. solve_decision. Defined.

Record state := State {
  heap : gmap loc (gmap string value);
  last_errors : list string;                   (* self.last_errors *)
  events : list event;                         (* oldest first *)
}.

Inductive result (A : Type) :=
| Ok (a : A)
| Raise (e : exn).
Arguments Ok {A} a.
Arguments Raise {A} e.

(** A computation returns or raises, and in both cases leaves a state. *)
Definition M (A : Type) : Type := state -> result A * state.

#[global] Instance M_ret : MRet M := fun A a σ => (Ok a, σ).
#[global] Instance M_bind : MBind M := fun A B f m σ =>
  match m σ with
  | (Ok a, σ') => f a σ'
  | (Raise e, σ') => (Raise e, σ')
  end.

Definition raise {A} (e : exn) : M A := fun σ => (Raise e, σ).
Definition emit (e : event) : M unit :=
  fun σ => (Ok tt, State (heap σ) (last_errors σ) (events σ ++ [e])).
Definition get_heap : M (gmap loc (gmap string value)) := fun σ => (Ok (heap σ), σ).
Definition set_last_errors (l : list string) : M unit :=
  fun σ => (Ok tt, State (heap σ) l (events σ)).
(** The store as a collaborator that ran on it has left it. *)
Definition set_heap (h : gmap loc (gmap string value)) : M unit :=
  fun σ => (Ok tt, State h (last_errors σ) (events σ)).

(** A collaborator's answer: it raised, or it returned. *)
Definition lift {A} (r : exn + A) : M A :=
  match r with inl e => raise e | inr a => mret a end.
Definition lift_unit (r : option exn) : M unit :=
  match r with Some e => raise e | None => mret tt end.

(** The dictionary a reference points to.  A Python reference always has
    one; for a location outside the store the model reads an empty
    dictionary. *)
Definition deref (h : gmap loc (gmap string value)) (l : loc) : gmap string value :=
  default ∅ (h !! l).

Definition read_dict (l : loc) : M (gmap string value) := fun σ => (Ok (deref (heap σ) l), σ).

(** [d[k] = v] on the dictionary object [l]. *)
Definition dict_set (l : loc) (k : string) (v : value) : M unit :=
  fun σ => (Ok tt, State (<[l := <[k := v]> (deref (heap σ) l)]> (heap σ))
                         (last_errors σ) (events σ)).

(** [d.copy()]: a new dictionary object with the same items. *)
Definition dict_copy (l : loc) : M loc :=
  fun σ => let l' := fresh (dom (heap σ)) in
           (Ok l', State (<[l' := deref (heap σ) l]> (heap σ))
                         (last_errors σ) (events σ)).

(** ** Configuration and collaborators *)

Record Settings := {
  cheetah_import_whitelist : list string;
  default_template_type : string;
  jinja2_includedir : string;
  server : string;
}.

(** [self.settings] is [None] when the Templar was built without a
    collection manager. *)
Record Templar := { settings : option Settings }.

(** Everything the module calls but does not define.  An engine is handed
    the caller's dictionary itself ([searchList=[search_table]],
    [template.render(search_table)]): the code of a template can assign to
    it and to every dictionary reachable from it, so an engine answers with
    what it returned or raised and with the store as it has left it. *)
Record Runtime := {
  jinja2_available : bool;
  (* the order in which a set of strings is iterated *)
  set_order : list string -> list string;
  set_order_perm : forall l, Permutation (set_order l) (remove_dups l);
  (* open(CHEETAH_MACROS_FILE).read() *)
  macros_file : exn + string;
  compile_macros : string -> option exn;
  (* compile(source, baseclass): arguments are the source and the macros *)
  compile_template : string -> string -> option exn;
  (* (int(major), int(minor), int(release)) of Cheetah.Version *)
  cheetah_version : exn + (Z * Z * Z);
  (* instantiate and print the compiled template: its text and the
     errors its error catcher listed; the flag says whether SNIPPET and
     read_snippet were rebound *)
  run_template : string -> string -> bool -> gmap loc (gmap string value) -> loc
                 -> (exn + (string * list string)) * gmap loc (gmap string value);
  cheetah_exc : exn -> string;
  pformat : list string -> string;
  (* jinja2 Template(..) or Environment(..).from_string(..), then render *)
  jinja2_run : option string -> string -> gmap loc (gmap string value) -> loc
               -> (exn + string) * gmap loc (gmap string value);
  exc_str : exn -> string;
  (* str() of a dictionary *)
  dict_str : gmap loc (gmap string value) -> loc -> string;
  mkdir_parent : string -> option exn;
  write_file : string -> string -> option exn;
}.

(** [str(v)], as [%s] formats it. *)
Definition py_str (rt : Runtime) (h : gmap loc (gmap string value)) (v : value) : string :=
  match v with
  | VStr s => s
  | VInt n => PyStr.of_Z n
  | VNone => "None"
  | VDict l => dict_str rt h l
  end.

(** Truth value of a string. *)
Definition nonempty (s : string) : bool :=
  match s with EmptyString => false | _ => true end.

(** ** The methods of [Templar] *)

Section Methods.

Variable rt : Runtime.
Variable self : Templar.

(** *** [check_for_invalid_imports] *)

(** [line.replace("#import", "").replace(" ", "").strip()] *)
Definition import_target (line : string) : string :=
  PyStr.strip (PyStr.replace (PyStr.replace line "#import" "") " " "").

(** The test of one line: the exception it raises, if it does. *)
Definition check_line (line : string) : option exn :=
  if negb (PyStr.find line "#import" =? -1) then
    let rest := import_target line in
    match settings self with
    | Some s =>
        if negb (bool_decide (rest ∈ cheetah_import_whitelist s))
        then Some (CX ("potentially insecure import in template: " +:+ rest))
        else None
    | None => None
    end
  else None.

Fixpoint check_lines (lines : list string) : option exn :=
  match lines with
  | [] => None
  | line :: lines' =>
      match check_line line with
      | Some e => Some e
      | None => check_lines lines'
      end
  end.

Definition check_for_invalid_imports (data : string) : M unit :=
  lift_unit (check_lines (PyStr.split data NL)).

(** *** [render_cheetah] *)

(** [line.find("--url") != -1 and line.find("url ") != -1] *)
Definition has_url_markers (line : string) : bool :=
  negb (PyStr.find line "--url" =? -1) && negb (PyStr.find line "url " =? -1).

(** The body of the loop over the lines, when [tree] is an nfs:// path. *)
Definition nfs_line (tree line : string) : exn + string :=
  if has_url_markers line
  then
    let rest := PyStr.drop 6 tree in
    match PyStr.split_max rest ":" (Some 2%nat) with
    | [server; directory] =>
        inr ("nfs --server " +:+ server +:+ " --dir " +:+ directory
             +:+ NL +:+ "#url --url=" +:+ tree)
    | _ => inl (CX ("Invalid syntax for NFS path given during import: " +:+ tree))
    end
  else inr line.

Fixpoint nfs_loop (tree : string) (lines : list string) (newdata : string)
  : exn + string :=
  match lines with
  | [] => inr newdata
  | line :: lines' =>
      match nfs_line tree line with
      | inl e => inl e
      | inr line' => nfs_loop tree lines' (newdata +:+ line' +:+ NL)
      end
  end.

(** The source handed to the compiler: alias replacement, nfs rewrite and
    the error catcher directive. *)
Definition cheetah_source (raw_data : string) (table : gmap string value)
  : exn + string :=
  let raw_data := PyStr.replace raw_data "TEMPLATE::" "$" in
  let rewritten :=
    match table !! "tree" with
    | Some (VStr tree) =>
        if PyStr.startswith tree "nfs://"
        then nfs_loop tree (PyStr.split raw_data NL) ""
        else inr raw_data
    | Some (VInt _) => inl (AttributeError "'int' object has no attribute 'startswith'")
    | Some VNone => inl (AttributeError "'NoneType' object has no attribute 'startswith'")
    | Some (VDict _) => inl (AttributeError "'dict' object has no attribute 'startswith'")
    | None => inr raw_data
    end in
  match rewritten with
  | inl e => inl e
  | inr raw_data => inr ("#errorCatcher ListErrors" +:+ NL +:+ raw_data)
  end.

(** [(major, minor, release) >= (2, 4, 2)] *)
Definition version_at_least_2_4_2 (v : Z * Z * Z) : bool :=
  let '(major, minor, release) := v in
  (2 <? major) || (2 =? major) && ((4 <? minor) || (4 =? minor) && (2 <=? release)).

Definition render_cheetah (raw_data : string) (search_table : loc) : M string :=
  _ ← check_for_invalid_imports raw_data;
  table ← read_dict search_table;
  raw_data ← lift (cheetah_source raw_data table);
  table_copy ← dict_copy search_table;
  _ ← dict_set search_table "template_universe" (VDict table_copy);
  _ ← emit ReadMacros;
  cheetah_macros_content ← lift (macros_file rt);
  _ ← emit (CompileMacros cheetah_macros_content);
  _ ← lift_unit (compile_macros rt cheetah_macros_content);
  _ ← emit (CompileTemplate raw_data);
  _ ← lift_unit (compile_template rt raw_data cheetah_macros_content);
  version ← lift (cheetah_version rt);
  let rebound := version_at_least_2_4_2 version in
  _ ← emit RunTemplate;
  h ← get_heap;
  let run := run_template rt raw_data cheetah_macros_content rebound h search_table in
  _ ← set_heap run.2;
  match run.1 with
  | inr (data_out, errors) =>
      _ ← set_last_errors errors;
      _ ← (match errors with
           | [] => mret tt
           | _ :: _ =>
               _ ← emit (LogWarning "errors were encountered rendering the template");
               emit (LogWarning (NL +:+ pformat rt errors))
           end);
      mret data_out
  | inl e =>
      _ ← emit (LogError (cheetah_exc rt e));
      raise (CX "Error templating file, check cobbler.log for more details")
  end.

(** *** [render_jinja2] *)

Definition jinja2_placeholder : string :=
  "# EXCEPTION OCCURRED DURING JINJA2 TEMPLATE PROCESSING" +:+ NL.

Definition includedir : option string :=
  match settings self with
  | Some s => if nonempty (jinja2_includedir s) then Some (jinja2_includedir s) else None
  | None => None
  end.

Definition render_jinja2 (raw_data : string) (search_table : loc) : M string :=
  _ ← emit (Jinja2Render includedir raw_data);
  h ← get_heap;
  let run := jinja2_run rt includedir raw_data h search_table in
  _ ← set_heap run.2;
  match run.1 with
  | inr data_out => mret data_out
  | inl exc =>
      _ ← emit (LogWarning "errors were encountered rendering the template");
      _ ← emit (LogWarning (exc_str rt exc));
      mret jinja2_placeholder
  end.

(** *** [render] *)

(** Lines 112-116: what "default" stands for. *)
Definition resolve_default (template_type : string) : string :=
  if String.eqb template_type "default" then
    match settings self with
    | Some s =>
        if nonempty (default_template_type s) then default_template_type s
        else "cheetah"
    | None => "cheetah"
    end
  else template_type.

(** Lines 118-123: a first line [#template=...] names the engine and is
    dropped. *)
Definition directive (lines : list string) (template_type raw_data : string)
  : exn + (string * string) :=
  match lines with
  | line0 :: lines' =>
      if PyStr.find line0 "#template=" =? 0 then
        match PyStr.split line0 "=" with
        | _ :: name :: _ =>
            inr (PyStr.lower (PyStr.strip name), PyStr.join NL lines')
        | _ => inl (IndexError "list index out of range")
        end
      else inr (template_type, raw_data)
  | [] => inr (template_type, raw_data)
  end.

(** Lines 137-143. *)
Definition is_port_80 (hp : value) : bool :=
  match hp with
  | VInt n => n =? 80
  | VStr s => String.eqb s "80"
  | _ => false
  end.

Definition http_server_value (h : gmap loc (gmap string value)) (server hp : value) : value :=
  if is_port_80 hp then server
  else VStr (py_str rt h server +:+ ":" +:+ py_str rt h hp).

Definition set_http_server (search_table : loc) : M unit :=
  table ← read_dict search_table;
  let hp := default (VStr "80") (table !! "http_port") in
  fallback ← (match settings self with
              | Some s => mret (VStr (server s))
              | None => raise (AttributeError "'NoneType' object has no attribute 'server'")
              end);
  let server := default fallback (table !! "server") in
  h ← get_heap;
  dict_set search_table "http_server" (http_server_value h server hp).

(** Lines 149-150, one turn of the loop:
    [data_out.replace(match, search_table[match.strip("@@")])]. *)
Definition token_key (tok : string) : string := PyStr.strip_chars tok "@@".

Definition substitute_one (table : gmap string value) (data_out tok : string)
  : exn + string :=
  match table !! token_key tok with
  | None => inl (KeyError (token_key tok))
  | Some (VStr v) => inr (PyStr.replace data_out tok v)
  | Some (VInt _) => inl (TypeError "replace() argument 2 must be str, not int")
  | Some VNone => inl (TypeError "replace() argument 2 must be str, not None")
  | Some (VDict _) => inl (TypeError "replace() argument 2 must be str, not dict")
  end.

Fixpoint substitute_loop (table : gmap string value) (toks : list string)
         (data_out : string) : exn + string :=
  match toks with
  | [] => inr data_out
  | tok :: toks' =>
      match substitute_one table data_out tok with
      | inl e => inl e
      | inr data_out' => substitute_loop table toks' data_out'
      end
  end.

(** Lines 146-150: the tokens are found first, collected in a set, and
    replaced in the order the set yields them. *)
Definition substitute_tokens (table : gmap string value) (data_out : string)
  : exn + string :=
  substitute_loop table (set_order rt (Regex.finditer data_out)) data_out.

(** Lines 153-154. *)
Definition trim_leading (data_out : string) : string :=
  if PyStr.startswith data_out NL then PyStr.lstrip data_out else data_out.

(** Lines 157-160. *)
Definition write_out (out_path : option string) (data_out : string) : M unit :=
  match out_path with
  | Some path =>
      _ ← emit (MkdirParent path);
      _ ← lift_unit (mkdir_parent rt path);
      _ ← emit (WriteFile path data_out);
      lift_unit (write_file rt path data_out)
  | None => mret tt
  end.

(** Lines 135-162: what follows the engine. *)
Definition post_filter (data_out : string) (search_table : loc)
           (out_path : option string) : M string :=
  _ ← set_http_server search_table;
  table ← read_dict search_table;
  data_out ← lift (substitute_tokens table data_out);
  let data_out := trim_leading data_out in
  _ ← write_out out_path data_out;
  mret data_out.

(** Lines 125-162: the engine named [template_type], then the filters. *)
Definition render_with (template_type raw_data : string) (search_table : loc)
           (out_path : option string) : M string :=
  if String.eqb template_type "cheetah" then
    data_out ← render_cheetah raw_data search_table;
    post_filter data_out search_table out_path
  else if String.eqb template_type "jinja2" then
    if jinja2_available rt then
      data_out ← render_jinja2 raw_data search_table;
      post_filter data_out search_table out_path
    else
      mret ("# ERROR: JINJA2 NOT AVAILABLE. Maybe you need to install python-jinja2?" +:+ NL)
  else
    mret ("# ERROR: UNSUPPORTED TEMPLATE TYPE (" +:+ template_type +:+ ")").

(** Lines 112-123: the engine that will run and the source it will get. *)
Definition select_engine (data_input template_type : string)
  : exn + (string * string) :=
  directive (PyStr.split data_input NL) (resolve_default template_type) data_input.

Definition supported (template_type : string) : bool :=
  bool_decide (template_type ∈ ["default"; "jinja2"; "cheetah"]).

(** [data_input] is the text of the template: the string itself, or what
    [read()] returned for a stream. *)
Definition render (data_input : string) (search_table : loc)
           (out_path : option string) (template_type : string) : M string :=
  if negb (supported template_type) then
    mret "# ERROR: Unsupported template type selected!"
  else
    '(template_type, raw_data) ← lift (select_engine data_input template_type);
    render_with template_type raw_data search_table out_path.

End Methods.

(** ** Definitions the statements use *)

(** The store once the context at [l] has been copied and the copy put
    into it as [template_universe]. *)
Definition with_universe (h : gmap loc (gmap string value)) (l : loc)
  : gmap loc (gmap string value) :=
  let copy := fresh (dom h) in
  <[l := <["template_universe" := VDict copy]> (deref h l)]>
    (<[copy := deref h l]> h).

(** The engines of [rt] leave the store as they find it: the templates
    only read their variables. *)
Definition read_only (rt : Runtime) : Prop :=
  (forall source macros rebound h l, (run_template rt source macros rebound h l).2 = h) /\
  (forall dir source h l, (jinja2_run rt dir source h l).2 = h).

(** The value [render] stores under [http_server]: [server] and [hp] are
    what the context (or the fallback) gave for the server and the port. *)
Definition http_server_of (rt : Runtime) (s : Settings) (h : gmap loc (gmap string value))
           (table : gmap string value) : value :=
  http_server_value rt h
    (default (VStr (server s)) (table !! "server"))
    (default (VStr "80") (table !! "http_port")).

(** What the spec asks of one token: the text is cut at every occurrence
    of the token, scanning from the left, and the value is put between
    the pieces. *)
Definition replace_every_occurrence (tok v data_out : string) : string :=
  PyStr.join v (PyStr.split data_out tok).

(** The value a token stands for, when it is a string. *)
Definition string_value (table : gmap string value) (tok : string) : option string :=
  match table !! token_key tok with
  | Some (VStr v) => Some v
  | _ => None
  end.

(** The spec's loop, for tokens that all have string values. *)
Fixpoint replace_tokens (table : gmap string value) (toks : list string)
         (data_out : string) : string :=
  match toks with
  | [] => data_out
  | tok :: toks' =>
      replace_tokens table toks'
        (replace_every_occurrence tok (default "" (string_value table tok)) data_out)
  end.

(** [k] newlines. *)
Fixpoint newlines (k : nat) : string :=
  match k with
  | O => EmptyString
  | S k' => NL +:+ newlines k'
  end.

(** The first character of [s] is whitespace. *)
Definition starts_with_space (s : string) : bool :=
  match s with
  | EmptyString => false
  | String c _ => PyStr.isspace c
  end.

(** [raw_data.replace("TEMPLATE::", "$")], on one line. *)
Definition alias (line : string) : string := PyStr.replace line "TEMPLATE::" "$".

(** Every line followed by a newline, as the loop builds [newdata]. *)
Fixpoint concat_lines (lines : list string) : string :=
  match lines with
  | [] => EmptyString
  | line :: lines' => line +:+ NL +:+ concat_lines lines'
  end.

(** [sub] occurs somewhere in [s]. *)
Fixpoint found (sub s : string) : bool :=
  String.prefix sub s
  || match s with
     | EmptyString => false
     | String _ s' => found sub s'
     end.

(** No character of [m] is a character of [a]. *)
Fixpoint no_char_of (m a : string) : bool :=
  match m with
  | EmptyString => true
  | String e m' => negb (PyStr.mem_char e a) && no_char_of m' a
  end.

(** No character of [s] is whitespace. *)
Fixpoint no_space (s : string) : bool :=
  match s with
  | EmptyString => true
  | String c s' => negb (PyStr.isspace c) && no_space s'
  end.

(** How many times [c] is in [s]. *)
Fixpoint count_char (c : ascii) (s : string) : nat :=
  match s with
  | EmptyString => O
  | String d s' => ((if Ascii.eqb c d then 1 else 0) + count_char c s')%nat
  end.

(** ** The collection manager ([cobbler_collections/manager.py]) *)

Module Manager.

(** What a manager holds: the eight collections and the settings. *)
Inductive kind :=
| Distros | Repos | Profiles | Systems | Images | Mgmtclasses | Packages | Files
| SettingsObject.

#[global] Instance kind_eq_dec : EqDecision kind.
Proof. solve_decision. Defined.

(** The attribute a member is kept in. *)
Definition attr_name (k : kind) : string :=
  match k with
  | Distros => "_distros"
  | Repos => "_repos"
  | Profiles => "_profiles"
  | Systems => "_systems"
  | Images => "_images"
  | Mgmtclasses => "_mgmtclasses"
  | Packages => "_packages"
  | Files => "_files"
  | SettingsObject => "_settings"
  end.

(** Objects (collections, the settings, the api) are known by identity. *)
Definition obj := positive.

(** The class: [has_loaded] and [__shared_state].  Every instance takes
    the shared dictionary as its [__dict__], so an instance has no state of
    its own; the dictionary is read by attribute: the three plain ones and
    the members by name. *)
Record class_state := ClassState {
  has_loaded : bool;
  init_time : option Z;                 (* the reading of time.time() *)
  current_id : option Z;
  api : option obj;
  members : gmap string obj;
}.

(** Calls to the collaborators, in order. *)
Inductive call :=
| Construct (k : kind)                  (* Distros(proxy), ..., Settings() *)
| Serialize (o : obj)                   (* serializer.serialize *)
| Deserialize (o : obj).                (* serializer.deserialize *)

#[global] Instance call_eq_dec : EqDecision call.
Proof. solve_decision. Defined.

Record world := World {
  cls : class_state;
  calls : list call;                    (* oldest first *)
}.

(** What the module calls: each answer may depend on what was called
    before. *)
Record Collaborators := {
  clock : Z;
  construct : list call -> kind -> exn + obj;
  serializer_serialize : list call -> obj -> option exn;
  serializer_deserialize : list call -> obj -> option exn;
  collection_type : obj -> string;
  str_of_exception : exn -> string;
}.

Definition MM (A : Type) : Type := world -> result A * world.

Definition ret {A} (a : A) : MM A := fun w => (Ok a, w).

Definition bind {A B} (m : MM A) (f : A -> MM B) : MM B :=
  fun w =>
    match m w with
    | (Ok a, w') => f a w'
    | (Raise e, w') => (Raise e, w')
    end.

Definition seq {A} (m : MM unit) (k : MM A) : MM A := bind m (fun _ => k).

Definition fail {A} (e : exn) : MM A := fun w => (Raise e, w).

Definition update (f : class_state -> class_state) : MM unit :=
  fun w => (Ok tt, World (f (cls w)) (calls w)).

Definition record_call (c : call) : MM unit :=
  fun w => (Ok tt, World (cls w) (calls w ++ [c])).

Section Methods.

Variable col : Collaborators.

(** [self._x = X(weakref.proxy(self))] *)
Definition make (k : kind) : MM unit :=
  fun w =>
    match construct col (calls w) k with
    | inl e => (Raise e, World (cls w) (calls w ++ [Construct k]))
    | inr o =>
        (Ok tt,
         World (ClassState (has_loaded (cls w)) (init_time (cls w)) (current_id (cls w))
                           (api (cls w)) (<[attr_name k := o]> (members (cls w))))
               (calls w ++ [Construct k]))
    end.

(** [__load] *)
Definition load (the_api : obj) : MM unit :=
  seq (update (fun c => ClassState true (init_time c) (current_id c) (api c) (members c)))
  (seq (update (fun c => ClassState (has_loaded c) (Some (clock col)) (current_id c)
                                    (api c) (members c)))
  (seq (update (fun c => ClassState (has_loaded c) (init_time c) (Some 0) (api c)
                                    (members c)))
  (seq (update (fun c => ClassState (has_loaded c) (init_time c) (current_id c)
                                    (Some the_api) (members c)))
  (seq (make Distros)
  (seq (make Repos)
  (seq (make Profiles)
  (seq (make Systems)
  (seq (make Images)
  (seq (make Mgmtclasses)
  (seq (make Packages)
  (seq (make Files)
       (make SettingsObject)))))))))))).

(** [__init__] *)
Definition init (the_api : obj) : MM unit :=
  fun w => if has_loaded (cls w) then (Ok tt, w) else load the_api w.

(** Reading [self._x]. *)
Definition member (name : string) : MM obj :=
  fun w =>
    match members (cls w) !! name with
    | Some o => (Ok o, w)
    | None =>
        (Raise (AttributeError
                  ("'CollectionManager' object has no attribute '" +:+ name +:+ "'")), w)
    end.

(** [distros()], [profiles()], [systems()], [settings()], [repos()],
    [images()], [mgmtclasses()], [packages()], [files()] *)
Definition accessor (k : kind) : MM obj := member (attr_name k).

(** [get_items] *)
Definition get_items (the_type : string) : MM obj :=
  if String.eqb the_type "distro" then member "_distros"
  else if String.eqb the_type "profile" then member "_profiles"
  else if String.eqb the_type "system" then member "_systems"
  else if String.eqb the_type "repo" then member "_repos"
  else if String.eqb the_type "image" then member "_images"
  else if String.eqb the_type "mgmtclass" then member "_mgmtclasses"
  else if String.eqb the_type "package" then member "_packages"
  else if String.eqb the_type "file" then member "_files"
  else if String.eqb the_type "settings" then member "_settings"
  else fail (CX ("internal error, collection name " +:+ the_type +:+ " not supported")).



(** The body of the loop of [deserialize]. *)
Definition deserialize_one (o : obj) : MM unit :=
  fun w =>
    match serializer_deserialize col (calls w) o with
    | Some e =>
        (Raise (CX ("serializer: error loading collection " +:+ collection_type col o
                    +:+ ": " +:+ str_of_exception col e
                    +:+ ". Check /etc/cobbler/modules.conf")),
         World (cls w) (calls w ++ [Deserialize o]))
    | None => (Ok tt, World (cls w) (calls w ++ [Deserialize o]))
    end.

Fixpoint deserialize_loop (objects : list obj) : MM unit :=
  match objects with
  | [] => ret tt
  | o :: objects' => seq (deserialize_one o) (deserialize_loop objects')
  end.

(** [deserialize]: the tuple is built first, then looped over. *)
Definition deserialize : MM unit :=
  bind (member "_settings") (fun o0 =>
  bind (member "_distros") (fun o1 =>
  bind (member "_repos") (fun o2 =>
  bind (member "_profiles") (fun o3 =>
  bind (member "_images") (fun o4 =>
  bind (member "_systems") (fun o5 =>
  bind (member "_mgmtclasses") (fun o6 =>
  bind (member "_packages") (fun o7 =>
  bind (member "_files") (fun o8 =>
  deserialize_loop [o0; o1; o2; o3; o4; o5; o6; o7; o8]))))))))).


End Methods.

(** The class as the module defines it, before any instance is made. *)
Definition pristine : world := World (ClassState false None None None ∅) [].

(** The order in which [__load] makes the members. *)
Definition load_order : list kind :=
  [Distros; Repos; Profiles; Systems; Images; Mgmtclasses; Packages; Files;
   SettingsObject].



(** The names [get_items] knows. *)
Definition item_types : list string :=
  ["distro"; "profile"; "system"; "repo"; "image"; "mgmtclass"; "package"; "file";
   "settings"].

(** Every member is there. *)
Definition loaded (w : world) (objects : kind -> obj) : Prop :=
  forall k, members (cls w) !! attr_name k = Some (objects k).

(** Collaborators that always succeed: the members are numbered in the
    order of [load_order]. *)
Definition number (k : kind) : obj :=
  match k with
  | Distros => 1 | Repos => 2 | Profiles => 3 | Systems => 4 | Images => 5
  | Mgmtclasses => 6 | Packages => 7 | Files => 8 | SettingsObject => 9
  end%positive.

Definition type_of_number (o : obj) : string :=
  match o with
  | 1 => "distro" | 2 => "repo" | 3 => "profile" | 4 => "system" | 5 => "image"
  | 6 => "mgmtclass" | 7 => "package" | 8 => "file" | _ => "setting"
  end%positive.

Definition good : Collaborators := {|
  clock := 1700000000;
  construct := fun _ k => inr (number k);
  serializer_serialize := fun _ _ => None;
  serializer_deserialize := fun _ _ => None;
  collection_type := type_of_number;
  str_of_exception := fun e => match e with Foreign _ msg => msg | _ => "" end;
|}.

(** The profiles cannot be made, read or written. *)
Definition bad_profiles : Collaborators := {|
  clock := 1700000000;
  construct := fun _ k =>
    match k with
    | Profiles => inl (Foreign "OSError" "no profiles")
    | _ => inr (number k)
    end;
  serializer_serialize := fun _ o =>
    if Pos.eqb o 3 then Some (Foreign "OSError" "disk full") else None;
  serializer_deserialize := fun _ o =>
    if Pos.eqb o 3 then Some (Foreign "ValueError" "bad json") else None;
  collection_type := type_of_number;
  str_of_exception := fun e => match e with Foreign _ msg => msg | _ => "" end;
|}.

(** A world in which the nine members are there, numbered. *)
Definition numbered_world : world :=
  World (ClassState true (Some 1700000000) (Some 0) (Some 100%positive)
           (list_to_map (map (fun k => (attr_name k, number k)) load_order)))
        [].

End Manager.

(** ** A concrete runtime, to run the model *)

(** A runtime in which only the two engines are left open: [jinja] maps a
    source to what the Jinja2 engine does with it, [cheetah] to what the
    compiled Cheetah template prints and the errors it lists, and [writes]
    is what the template's code does to the store it runs on.  Sets are
    iterated in the order of first insertion; the macro file is empty and
    the file system accepts everything. *)
Definition engine_runtime (jinja : string -> exn + string)
    (cheetah : string -> exn + (string * list string))
    (writes : gmap loc (gmap string value) -> loc -> gmap loc (gmap string value))
  : Runtime := {|
  jinja2_available := true;
  set_order := remove_dups;
  set_order_perm := fun l => Permutation_refl (remove_dups l);
  macros_file := inr "";
  compile_macros := fun _ => None;
  compile_template := fun _ _ => None;
  cheetah_version := inr (3, 2, 6);
  run_template := fun src _ _ h l => (cheetah src, writes h l);
  cheetah_exc := fun _ => "";
  pformat := fun _ => "";
  jinja2_run := fun _ src h l => (jinja src, writes h l);
  exc_str := fun e => match e with Foreign _ msg => msg | _ => "" end;
  dict_str := fun _ _ => "{...}";
  mkdir_parent := fun _ => None;
  write_file := fun _ _ => None;
|}.

(** The same with templates that only read their variables. *)
Definition simple_runtime (jinja : string -> exn + string)
    (cheetah : string -> exn + (string * list string)) : Runtime :=
  engine_runtime jinja cheetah (fun h _ => h).

(** Both engines print their source unchanged. *)
Definition echo_runtime : Runtime :=
  simple_runtime (fun src => inr src) (fun src => inr (src, [])).

(** The Jinja2 engine rejects every template. *)
Definition broken_jinja2_runtime : Runtime :=
  simple_runtime (fun _ => inl (Foreign "TemplateSyntaxError" "unexpected end of template"))
                 (fun src => inr (src, [])).

(** The compiled Cheetah template raises when it is run. *)
Definition broken_cheetah_runtime : Runtime :=
  simple_runtime (fun src => inr src)
                 (fun _ => inl (Foreign "NotFound" "cannot find 'distro'")).

(** The compiled Cheetah template prints its source and lists one error. *)
Definition listing_cheetah_runtime : Runtime :=
  simple_runtime (fun src => inr src)
                 (fun src => inr (src, ["cannot find 'distro'"])).

(** Both engines print their source, and the template assigns to two of
    its variables: [server] becomes "changed" and [extra] is added. *)
Definition writing_runtime : Runtime :=
  engine_runtime (fun src => inr src) (fun src => inr (src, []))
    (fun h l => <[l := <["extra" := VInt 1]> (<["server" := VStr "changed"]> (deref h l))]> h).

(** There is no macro file. *)
Definition no_macros_runtime : Runtime := {|
  jinja2_available := true;
  set_order := remove_dups;
  set_order_perm := fun l => Permutation_refl (remove_dups l);
  macros_file := inl (Foreign "FileNotFoundError" "/etc/cobbler/cheetah_macros");
  compile_macros := fun _ => None;
  compile_template := fun _ _ => None;
  cheetah_version := inr (3, 2, 6);
  run_template := fun src _ _ h _ => (inr (src, []), h);
  cheetah_exc := fun _ => "";
  pformat := fun _ => "";
  jinja2_run := fun _ src h _ => (inr src, h);
  exc_str := fun _ => "";
  dict_str := fun _ _ => "{...}";
  mkdir_parent := fun _ => None;
  write_file := fun _ _ => None;
|}.

Definition demo_settings : Settings := {|
  cheetah_import_whitelist := ["random"; "re"; "time"; "netaddr"];
  default_template_type := "cheetah";
  jinja2_includedir := "";
  server := "192.168.1.1";
|}.

Definition demo_templar : Templar := {| settings := Some demo_settings |}.

(** A store with one dictionary, at location 1. *)
Definition one_dict (d : gmap string value) : state :=
  State {[ 1%positive := d ]} [] [].

(** ** Tactics *)

Ltac run_monad :=
  unfold lift, lift_unit, raise, emit, get_heap, set_heap, set_last_errors,
    read_dict, dict_set, dict_copy, mbind, M_bind, mret, M_ret in *.

(** Closes a decidable goal on concrete data by evaluation. *)
Ltac by_eval := refine (bool_decide_unpack _ _); vm_compute; exact I.

(** ** The primitives on examples *)

Example find_example :
  PyStr.find "a #import os" "#import" = 2 /\ PyStr.find "abc" "x" = -1.
Proof. split; reflexivity. Qed.

Example replace_example :
  PyStr.replace "aXXbXXXc" "XX" "-" = "a-b-Xc" /\
  PyStr.replace "abc" "" "-" = "-a-b-c-".
Proof. split; reflexivity. Qed.

Example split_example :
  PyStr.split "a:b::c" ":" = ["a"; "b"; ""; "c"] /\
  PyStr.split_max "a:b:c:d" ":" (Some 2%nat) = ["a"; "b"; "c:d"] /\
  PyStr.split "" ":" = [""].
Proof. repeat split; reflexivity. Qed.

Example strip_example :
  PyStr.strip ("  x y " +:+ NL) = "x y" /\
  PyStr.strip_chars "@@@c@@" "@@" = "c" /\
  PyStr.lstrip (NL +:+ " " +:+ NL +:+ "x ") = "x ".
Proof. repeat split; reflexivity. Qed.

Example lower_example : PyStr.lower "JinJa2" = "jinja2".
Proof. reflexivity. Qed.

Example of_Z_example :
  PyStr.of_Z 8080 = "8080" /\ PyStr.of_Z (-5) = "-5" /\ PyStr.of_Z 0 = "0".
Proof. repeat split; reflexivity. Qed.

(** A token needs a closing [@@] before any whitespace; the shortest match
    is taken and the scan goes on after it. *)
Example finditer_example :
  Regex.finditer "x @@a@@ @@ b@@ @@@c@@@@" = ["@@a@@"; "@@@c@@"] /\
  Regex.finditer "@@@@" = ["@@@@"] /\
  Regex.finditer "@@a@ @b@@" = [].
Proof. repeat split; reflexivity. Qed.

(** ** Facts about the string primitives *)

Module PyStrFacts.
Import PyStr.

Lemma app_assoc (a b c : string) : (a +:+ b) +:+ c = a +:+ (b +:+ c).
Proof. induction a as [|x a IH]; cbn; [reflexivity | f_equal; exact IH]. Qed.

Lemma app_nil_r (a : string) : a +:+ "" = a.
Proof. induction a as [|x a IH]; cbn; [reflexivity | f_equal; exact IH]. Qed.

Lemma prefix_app (p r : string) : String.prefix p (p +:+ r) = true.
Proof.
  induction p as [|c p IH]; simpl; [by destruct r |].
  destruct (ascii_dec c c); [exact IH | congruence].
Qed.

Lemma prefix_inv (p s : string) :
  String.prefix p s = true -> exists r, s = p +:+ r.
Proof.
  revert s. induction p as [|c p IH]; intros s H; simpl in *.
  - by exists s.
  - destruct s as [|d s]; simpl in H; [discriminate |].
    destruct (ascii_dec c d) as [->|]; [| discriminate].
    destruct (IH _ H) as [r ->]. by exists r.
Qed.

Lemma prefix_nil (s : string) : String.prefix "" s = true.
Proof. by destruct s. Qed.

(** A prefix of a prefix. *)
Lemma prefix_app_l (p a b : string) :
  String.prefix p a = true -> String.prefix p (a +:+ b) = true.
Proof.
  intros H. destruct (prefix_inv _ _ H) as [r ->].
  rewrite app_assoc. apply prefix_app.
Qed.

Lemma length_app (a b : string) :
  String.length (a +:+ b) = (String.length a + String.length b)%nat.
Proof. induction a as [|x a IH]; cbn; [reflexivity | f_equal; exact IH]. Qed.

Lemma drop_app (a b : string) : drop (String.length a) (a +:+ b) = b.
Proof. induction a as [|x a IH]; simpl; [by destruct b | exact IH]. Qed.

(** Scanning a text for a non-empty pattern: at each position the pattern
    is there, and the scan jumps over it, or it is not, and the scan moves
    by one character. *)
Lemma scan_ind (pat : string) (P : string -> Prop) :
  pat <> "" ->
  P "" ->
  (forall r, P r -> P (pat +:+ r)) ->
  (forall c s, String.prefix pat (String c s) = false -> P s -> P (String c s)) ->
  forall s, P s.
Proof.
  intros Hne H0 Hhit Hmiss s.
  remember (String.length s) as n eqn:Hn.
  revert s Hn. induction n as [n IH] using lt_wf_ind. intros s Hn.
  destruct s as [|c s]; [exact H0 |].
  destruct (String.prefix pat (String c s)) eqn:Hp.
  - destruct (prefix_inv _ _ Hp) as [r Hr]. rewrite Hr. apply Hhit.
    apply (IH (String.length r)); [| reflexivity].
    subst n. rewrite Hr, length_app.
    destruct pat; [congruence | simpl; lia].
  - apply Hmiss; [exact Hp |].
    apply (IH (String.length s)); [subst n; simpl; lia | reflexivity].
Qed.

(** *** [replace] *)

Lemma replace_go_skip (old new u r : string) :
  replace_go old new (u +:+ r) (String.length u) = replace_go old new r 0.
Proof. induction u as [|c u IH]; simpl; [reflexivity | exact IH]. Qed.

Lemma replace_go_hit (old new r : string) :
  old <> "" ->
  replace_go old new (old +:+ r) 0 = new +:+ replace_go old new r 0.
Proof.
  intros Hne. destruct old as [|c o]; [congruence |].
  change (String c o +:+ r) with (String c (o +:+ r)).
  cbn [replace_go].
  change (String c (o +:+ r)) with (String c o +:+ r).
  rewrite prefix_app. f_equal.
  cbn [String.length]. replace (S (String.length o) - 1)%nat with (String.length o) by lia.
  apply replace_go_skip.
Qed.

Lemma replace_go_miss (old new : string) c s :
  String.prefix old (String c s) = false ->
  replace_go old new (String c s) 0 = String c (replace_go old new s 0).
Proof. intros H. cbn [replace_go]. by rewrite H. Qed.

(** *** [split] and [join] *)

Lemma split_go_skip (sep u r : string) b :
  split_go sep (u +:+ r) (String.length u) b = split_go sep r 0 b.
Proof. induction u as [|c u IH]; simpl; [reflexivity | exact IH]. Qed.

Lemma split_go_hit (sep r : string) :
  sep <> "" ->
  split_go sep (sep +:+ r) 0 None
  = ("", (split_go sep r 0 None).1 :: (split_go sep r 0 None).2).
Proof.
  intros Hne. destruct sep as [|c o]; [congruence |].
  change (String c o +:+ r) with (String c (o +:+ r)).
  cbn [split_go budget_left andb].
  change (String c (o +:+ r)) with (String c o +:+ r).
  rewrite prefix_app.
  cbn [String.length budget_dec fmap option_fmap option_map].
  replace (S (String.length o) - 1)%nat with (String.length o) by lia.
  by rewrite split_go_skip.
Qed.

Lemma split_go_miss (sep : string) c s b :
  String.prefix sep (String c s) = false ->
  split_go sep (String c s) 0 b
  = (String c (split_go sep s 0 b).1, (split_go sep s 0 b).2).
Proof.
  intros H. cbn [split_go]. rewrite H, andb_false_r. reflexivity.
Qed.

Lemma split_hit (sep r : string) :
  sep <> "" -> split (sep +:+ r) sep = "" :: split r sep.
Proof. intros H. unfold split, split_max. by rewrite split_go_hit. Qed.

Lemma split_miss (sep : string) c s :
  String.prefix sep (String c s) = false ->
  split (String c s) sep
  = String c (hd "" (split s sep)) :: tl (split s sep).
Proof. intros H. unfold split, split_max. by rewrite split_go_miss. Qed.

Lemma split_nil (sep : string) : split "" sep = [""].
Proof. reflexivity. Qed.

Lemma split_cons (s sep : string) :
  split s sep = hd "" (split s sep) :: tl (split s sep).
Proof. reflexivity. Qed.

Lemma join_cons_cons (sep x y : string) l :
  join sep (x :: y :: l) = x +:+ sep +:+ join sep (y :: l).
Proof. reflexivity. Qed.

Lemma join_push (sep : string) c x l :
  join sep (String c x :: l) = String c (join sep (x :: l)).
Proof. destruct l; reflexivity. Qed.

(** Splitting loses nothing: the separator puts the pieces back together. *)
Lemma join_split (s sep : string) :
  sep <> "" -> join sep (split s sep) = s.
Proof.
  intros Hne. revert s.
  apply (scan_ind sep); [exact Hne | reflexivity | intros r IH | intros c s Hp IH].
  - rewrite split_hit by done. rewrite (split_cons r sep) in *.
    rewrite join_cons_cons. cbn [String.append]. by rewrite IH.
  - rewrite split_miss by done. rewrite join_push.
    by rewrite <- split_cons, IH.
Qed.

(** [s.replace(old, new) == new.join(s.split(old))] *)
Lemma replace_join_split (s old new : string) :
  old <> "" -> replace s old new = join new (split s old).
Proof.
  intros Hne.
  assert (replace s old new = replace_go old new s 0) as ->
    by (destruct old; [congruence | reflexivity]).
  revert s.
  apply (scan_ind old); [exact Hne | reflexivity | intros r IH | intros c s Hp IH].
  - rewrite replace_go_hit, split_hit by done.
    rewrite (split_cons r old) in *. rewrite join_cons_cons.
    cbn [String.append]. by rewrite IH.
  - rewrite replace_go_miss, split_miss by done.
    rewrite join_push. by rewrite <- split_cons, IH.
Qed.

End PyStrFacts.

(** ** The import whitelist *)

Section Whitelist.

Variable self : Templar.
Variable s : Settings.
Hypothesis Hsettings : settings self = Some s.

Lemma check_line_rejects (line : string) :
  PyStr.find line "#import" <> -1 ->
  (import_target line ∉ cheetah_import_whitelist s) ->
  check_line self line
  = Some (CX ("potentially insecure import in template: " +:+ import_target line)).
Proof.
  intros Hfind Hnot. unfold check_line.
  destruct (Z.eqb_spec (PyStr.find line "#import") (-1)) as [|_]; [done |].
  cbn [negb]. rewrite Hsettings.
  by rewrite bool_decide_eq_false_2.
Qed.

(** A raised exception always names a target outside the whitelist. *)
Lemma check_line_raises (line : string) e :
  check_line self line = Some e ->
  PyStr.find line "#import" <> -1 /\
  (import_target line ∉ cheetah_import_whitelist s) /\
  e = CX ("potentially insecure import in template: " +:+ import_target line).
Proof.
  unfold check_line. rewrite Hsettings.
  destruct (Z.eqb_spec (PyStr.find line "#import") (-1)) as [|Hne]; [done |].
  cbn [negb]. case_bool_decide; cbn [negb]; [done |].
  intros [= <-]. done.
Qed.

Lemma check_lines_rejects (lines : list string) (line : string) :
  line ∈ lines ->
  PyStr.find line "#import" <> -1 ->
  (import_target line ∉ cheetah_import_whitelist s) ->
  exists bad,
    bad ∈ lines /\ PyStr.find bad "#import" <> -1 /\
    (import_target bad ∉ cheetah_import_whitelist s) /\
    check_lines self lines
    = Some (CX ("potentially insecure import in template: " +:+ import_target bad)).
Proof.
  intros Hin Hfind Hnot.
  induction lines as [|l lines IH]; [by apply elem_of_nil in Hin |].
  cbn [check_lines]. destruct (check_line self l) as [e|] eqn:Hl.
  - apply check_line_raises in Hl as (? & ? & ->).
    exists l. split; [left |]; done.
  - apply elem_of_cons in Hin as [-> | Hin].
    + by rewrite check_line_rejects in Hl.
    + destruct (IH Hin) as (bad & ? & ? & ? & ->).
      exists bad. split; [by right | done].
Qed.

End Whitelist.

(** C1.  With settings configured, a Cheetah template that has an [#import]
    line whose target (the line without [#import], without spaces and
    stripped) is not in [cheetah_import_whitelist] makes [render_cheetah]
    raise [CX] for such a target; the state is the one the call started in:
    no macro file read, nothing compiled or run, the context untouched, and
    no text returned. *)
Theorem import_outside_whitelist_raises
    (rt : Runtime) (self : Templar) (s : Settings)
    (raw_data : string) (search_table : loc) (σ : state) (line : string) :
  settings self = Some s ->
  line ∈ PyStr.split raw_data NL ->
  PyStr.find line "#import" <> -1 ->
  (import_target line ∉ cheetah_import_whitelist s) ->
  exists bad,
    bad ∈ PyStr.split raw_data NL /\
    (import_target bad ∉ cheetah_import_whitelist s) /\
    render_cheetah rt self raw_data search_table σ
    = (Raise (CX ("potentially insecure import in template: " +:+ import_target bad)), σ).
Proof.
  intros Hs Hin Hfind Hnot.
  destruct (check_lines_rejects self s Hs _ _ Hin Hfind Hnot)
    as (bad & Hbad & _ & Hbadnot & Hcheck).
  exists bad. split; [done | split; [done |]].
  unfold render_cheetah, check_for_invalid_imports. run_monad.
  by rewrite Hcheck.
Qed.

Lemma import_outside_whitelist_raises_witness :
  exists bad,
    bad ∈ PyStr.split ("echo hi" +:+ NL +:+ "#import os") NL /\
    (import_target bad ∉ cheetah_import_whitelist demo_settings) /\
    render_cheetah echo_runtime demo_templar ("echo hi" +:+ NL +:+ "#import os")
      1%positive (one_dict ∅)
    = (Raise (CX ("potentially insecure import in template: " +:+ import_target bad)),
       one_dict ∅).
Proof.
  apply (import_outside_whitelist_raises echo_runtime demo_templar demo_settings
           ("echo hi" +:+ NL +:+ "#import os") 1%positive (one_dict ∅) "#import os").
  - reflexivity.
  - by_eval.
  - by_eval.
  - by_eval.
Defined.

(** ** The [#template=] directive *)

Module DirectiveFacts.
Import PyStr PyStrFacts.

Lemma find_prefix (s sub : string) :
  String.prefix sub s = true -> find s sub = 0.
Proof. intros H. unfold find. destruct s; cbn [find_from]; by rewrite H. Qed.

(** The directive has no newline in it: it is in the first line. *)
Lemma split_directive_line (r : string) :
  split ("#template=" +:+ r) NL
  = ("#template=" +:+ hd "" (split r NL)) :: tl (split r NL).
Proof.
  cbn [String.append].
  do 10 (rewrite split_miss by reflexivity; cbn [hd tl]).
  reflexivity.
Qed.

(** The first [=] of a directive line is the one of the directive. *)
Lemma split_directive_fields (p : string) :
  split ("#template=" +:+ p) "="
  = "#template" :: hd "" (split p "=") :: tl (split p "=").
Proof.
  cbn [String.append].
  do 9 (rewrite split_miss by reflexivity; cbn [hd tl]).
  change (String "=" p) with ("=" +:+ p).
  rewrite split_hit by done. cbn [hd tl]. by rewrite <- split_cons.
Qed.

End DirectiveFacts.

Lemma directive_found (lines' : list string) (p template_type raw_data : string) :
  directive (("#template=" +:+ p) :: lines') template_type raw_data
  = inr (PyStr.lower (PyStr.strip (hd "" (PyStr.split p "="))), PyStr.join NL lines').
Proof.
  unfold directive.
  rewrite DirectiveFacts.find_prefix by apply PyStrFacts.prefix_app.
  cbn [Z.eqb]. by rewrite DirectiveFacts.split_directive_fields.
Qed.




(** ** The Jinja2 wrapper *)

(** C6.  Whatever exception the Jinja2 engine raises while the template is
    built or rendered, [render_jinja2] returns: two warnings are logged (the
    fixed one and the text of the exception) and the result is the fixed
    placeholder.  The store is as the engine left it when it raised ([h']),
    and [last_errors] is not touched. *)
Theorem jinja2_failure_returns_placeholder
    (rt : Runtime) (self : Templar) (raw_data : string) (search_table : loc)
    (σ : state) (exc : exn) (h' : gmap loc (gmap string value)) :
  jinja2_run rt (includedir self) raw_data (heap σ) search_table = (inl exc, h') ->
  render_jinja2 rt self raw_data search_table σ
  = (Ok jinja2_placeholder,
     State h' (last_errors σ)
       (events σ ++ [Jinja2Render (includedir self) raw_data]
                 ++ [LogWarning "errors were encountered rendering the template"]
                 ++ [LogWarning (exc_str rt exc)])).
Proof.
  intros Hfail. unfold render_jinja2. run_monad. cbn [heap last_errors events].
  rewrite Hfail. cbn [fst snd heap last_errors events].
  by rewrite <- !(assoc_L (++)).
Qed.

Lemma jinja2_failure_returns_placeholder_witness :
  render_jinja2 broken_jinja2_runtime demo_templar "{% if %}" 1%positive (one_dict ∅)
  = (Ok jinja2_placeholder,
     State (heap (one_dict ∅)) (last_errors (one_dict ∅))
       (events (one_dict ∅) ++ [Jinja2Render (includedir demo_templar) "{% if %}"]
          ++ [LogWarning "errors were encountered rendering the template"]
          ++ [LogWarning (exc_str broken_jinja2_runtime
                            (Foreign "TemplateSyntaxError" "unexpected end of template"))])).
Proof.
  apply (jinja2_failure_returns_placeholder broken_jinja2_runtime demo_templar
           "{% if %}" 1%positive (one_dict ∅)
           (Foreign "TemplateSyntaxError" "unexpected end of template")
           (heap (one_dict ∅))).
  reflexivity.
Defined.

(** ** Leading whitespace *)

Lemma trim_leading_newline (s : string) :
  trim_leading (NL +:+ s) = PyStr.lstrip s.
Proof.
  unfold trim_leading, PyStr.startswith.
  rewrite PyStrFacts.prefix_app. reflexivity.
Qed.

Lemma trim_leading_other (s : string) :
  PyStr.startswith s NL = false -> trim_leading s = s.
Proof. intros H. unfold trim_leading. by rewrite H. Qed.

Lemma lstrip_newlines (k : nat) (s : string) :
  PyStr.lstrip (newlines k +:+ s) = PyStr.lstrip s.
Proof. induction k as [|k IH]; [done | exact IH]. Qed.

Lemma lstrip_no_space (s : string) :
  starts_with_space s = false -> PyStr.lstrip s = s.
Proof. destruct s as [|c s]; [done |]. cbn. by intros ->. Qed.

(** Where the code and the sentence "only the leading newlines go" agree:
    when what follows the newlines does not start with whitespace. *)
Lemma trim_leading_newlines_only (k : nat) (s : string) :
  starts_with_space s = false ->
  trim_leading (newlines (S k) +:+ s) = s.
Proof.
  intros Hs. cbn [newlines]. rewrite PyStrFacts.app_assoc, trim_leading_newline.
  by rewrite lstrip_newlines, lstrip_no_space.
Qed.

(** And where they do not: the whitespace after the newlines goes too. *)
Lemma trim_leading_takes_blanks (k : nat) (c : ascii) (s : string) :
  PyStr.isspace c = true ->
  trim_leading (newlines (S k) +:+ String c s) = PyStr.lstrip s.
Proof.
  intros Hc. cbn [newlines]. rewrite PyStrFacts.app_assoc, trim_leading_newline.
  rewrite lstrip_newlines. cbn. by rewrite Hc.
Qed.

(** C3, on the code.  A text that starts with a newline loses all of its
    leading whitespace, not only the newlines: the blanks that follow the
    first newline are removed with it.  The example of the specification,
    where only newlines lead, comes out as written there. *)
Theorem trim_removes_blanks_after_newline :
  trim_leading (NL +:+ "  foo") = "foo" /\
  trim_leading (NL +:+ NL +:+ "foo" +:+ NL +:+ NL +:+ "bar")
  = "foo" +:+ NL +:+ NL +:+ "bar" /\
  (render echo_runtime demo_templar (NL +:+ "  foo") 1%positive None "jinja2"
     (one_dict ∅)).1 = Ok "foo".
Proof. split; [reflexivity |]. split; [reflexivity |]. by vm_compute. Qed.

(** ** What a render does to the store *)

Section StoreEffects.

Variable rt : Runtime.
Variable self : Templar.


Lemma deref_after_copy (h : gmap loc (gmap string value)) (l : loc) :
  deref (<[fresh (dom h) := deref h l]> h) l = deref h l.
Proof.
  unfold deref at 1. destruct (decide (fresh (dom h) = l)) as [-> | Hne].
  - by rewrite lookup_insert_eq.
  - by rewrite lookup_insert_ne.
Qed.

(** [render_cheetah] either raises before it touches the context (import
    check, nfs rewrite), or raises with the universe injected and no
    template run (macro file, compilation, version), or has run the
    template on the store with the universe injected and leaves the store
    as the template left it. *)
Lemma render_cheetah_store (raw_data : string) (search_table : loc)
      (σ σ' : state) (r : result string) :
  render_cheetah rt self raw_data search_table σ = (r, σ') ->
  (σ' = σ /\ exists e, r = Raise e) \/
  (heap σ' = with_universe (heap σ) search_table /\ exists e, r = Raise e) \/
  (exists source macros rebound,
     heap σ' = (run_template rt source macros rebound
                  (with_universe (heap σ) search_table) search_table).2).
Proof.
  unfold render_cheetah, check_for_invalid_imports. run_monad.
  intros H. destruct σ as [h le ev]. cbn [heap last_errors events] in *.
  repeat (case_match; simplify_eq/=); eauto;
    right; rewrite ?deref_after_copy; fold (with_universe h search_table);
    eauto 10.
Qed.

Lemma deref_insert_eq (h : gmap loc (gmap string value)) (l : loc)
      (d : gmap string value) :
  deref (<[l := d]> h) l = d.
Proof. unfold deref. by rewrite lookup_insert_eq. Qed.

Lemma deref_with_universe (h : gmap loc (gmap string value)) (l : loc) :
  deref (with_universe h l) l
  = <["template_universe" := VDict (fresh (dom h))]> (deref h l).
Proof. unfold with_universe. by rewrite deref_insert_eq. Qed.

(** [render_jinja2] runs the engine on the store as the caller has it and
    always returns. *)
Lemma render_jinja2_store (raw_data : string) (search_table : loc)
      (σ σ' : state) (r : result string) :
  render_jinja2 rt self raw_data search_table σ = (r, σ') ->
  heap σ' = (jinja2_run rt (includedir self) raw_data (heap σ) search_table).2 /\
  exists data_out, r = Ok data_out.
Proof.
  unfold render_jinja2. run_monad. intros H.
  destruct σ as [h le ev]. cbn [heap last_errors events] in *.
  repeat (case_match; simplify_eq/=); eauto.
Qed.


(** The filters change the store in one place: the context gets its
    [http_server]; with no settings they raise before that. *)
Lemma post_filter_store (data_out : string) (search_table : loc)
      (out_path : option string) (σ σ' : state) (r : result string) :
  post_filter rt self data_out search_table out_path σ = (r, σ') ->
  (settings self = None /\ σ' = σ /\ exists e, r = Raise e) \/
  (exists s, settings self = Some s /\
     heap σ'
     = <[search_table :=
           <["http_server" := http_server_of rt s (heap σ) (deref (heap σ) search_table)]>
             (deref (heap σ) search_table)]> (heap σ)).
Proof.
  unfold post_filter, set_http_server, write_out, http_server_of. run_monad.
  intros H. destruct σ as [h le ev]. cbn [heap last_errors events] in *.
  destruct (settings self) as [s|]; [right; exists s | left];
    repeat (case_match; simplify_eq/=); eauto.
  simplify_eq. eauto.
Qed.

End StoreEffects.

(** ** [http_server] *)

Lemma http_server_port_80 (rt : Runtime) (h : gmap loc (gmap string value))
      (server hp : value) :
  hp = VInt 80 \/ hp = VStr "80" -> http_server_value rt h server hp = server.
Proof. by intros [-> | ->]. Qed.

Lemma http_server_other_port (rt : Runtime) (h : gmap loc (gmap string value))
      (server hp : value) :
  hp <> VInt 80 -> hp <> VStr "80" ->
  http_server_value rt h server hp
  = VStr (py_str rt h server +:+ ":" +:+ py_str rt h hp).
Proof.
  intros H1 H2. unfold http_server_value.
  destruct hp as [p | n | | l]; cbn [is_port_80]; try done.
  - destruct (String.eqb_spec p "80"); [congruence | done].
  - destruct (Z.eqb_spec n 80); [congruence | done].
Qed.

(** When no engine runs, [render] returns one of its three fixed texts and
    the state, the context included, is untouched. *)
Lemma render_without_engine
    (rt : Runtime) (self : Templar) (data_input : string) (search_table : loc)
    (out_path : option string) (template_type : string) (σ : state) :
  supported template_type = false \/
  (exists engine source,
     select_engine self data_input template_type = inr (engine, source) /\
     engine <> "cheetah" /\
     (engine = "jinja2" -> jinja2_available rt = false)) ->
  exists text,
    render rt self data_input search_table out_path template_type σ = (Ok text, σ).
Proof.
  unfold render. intros [-> | (engine & source & Hsel & Hne & Hj)]; [by eexists |].
  destruct (supported template_type); [| by eexists]. cbn [negb].
  rewrite Hsel. unfold render_with. run_monad.
  apply String.eqb_neq in Hne as ->.
  destruct (String.eqb_spec engine "jinja2") as [He | _]; [| by eexists].
  rewrite (Hj He). by eexists.
Qed.

(** C5.  When an engine was selected and ran (the selector is supported and
    the engine is Cheetah, or Jinja2 and it is installed) and [render]
    returned, settings are configured, the engine had returned a text and
    left a state [σ1], and the context is read there, after the engine:
    with the server the context's [server] (else the settings' server) and
    the port its [http_port] (else "80"), the store [render] leaves is that
    of [σ1] with the context's [http_server] set to the server itself when
    the port is the number 80 or the string "80", and to the string
    "server:port" otherwise. *)
Theorem http_server_stored_after_render
    (rt : Runtime) (self : Templar) (data_input : string) (search_table : loc)
    (out_path : option string) (template_type : string) (σ σ' : state)
    (text engine source : string) :
  supported template_type = true ->
  select_engine self data_input template_type = inr (engine, source) ->
  engine = "cheetah" \/ (engine = "jinja2" /\ jinja2_available rt = true) ->
  render rt self data_input search_table out_path template_type σ = (Ok text, σ') ->
  exists s data_out σ1,
    settings self = Some s /\
    (if String.eqb engine "cheetah"
     then render_cheetah rt self source search_table σ
     else render_jinja2 rt self source search_table σ) = (Ok data_out, σ1) /\
    let table := deref (heap σ1) search_table in
    let server := default (VStr (server s)) (table !! "server") in
    let hp := default (VStr "80") (table !! "http_port") in
    heap σ'
    = <[search_table :=
          <["http_server" :=
              if is_port_80 hp then server
              else VStr (py_str rt (heap σ1) server +:+ ":" +:+ py_str rt (heap σ1) hp)]>
            table]> (heap σ1).
Proof.
  intros Hsup Hsel Heng. unfold render. rewrite Hsup, Hsel. cbn [negb].
  unfold render_with. run_monad. cbn [lift].
  assert (forall data_out σ1,
            post_filter rt self data_out search_table out_path σ1 = (Ok text, σ') ->
            exists s,
              settings self = Some s /\
              heap σ'
              = <[search_table :=
                    <["http_server" :=
                        http_server_of rt s (heap σ1) (deref (heap σ1) search_table)]>
                      (deref (heap σ1) search_table)]> (heap σ1))
    as Hpost.
  { intros data_out σ1 Hpf.
    apply post_filter_store in Hpf as [(_ & _ & e & [=]) | (s & Hs & Hheap)].
    by exists s. }
  destruct Heng as [-> | [-> Hav]]; cbn [String.eqb Ascii.eqb Bool.eqb].
  - destruct (render_cheetah rt self source search_table σ) as [[data_out|e] σ1] eqn:Hrc;
      [| by intros [=]].
    intros Hpf. destruct (Hpost _ _ Hpf) as (s & Hs & Hv).
    by exists s, data_out, σ1.
  - rewrite Hav.
    destruct (render_jinja2 rt self source search_table σ) as [[data_out|e] σ1] eqn:Hrj;
      [| by intros [=]].
    intros Hpf. destruct (Hpost _ _ Hpf) as (s & Hs & Hv).
    by exists s, data_out, σ1.
Qed.

Lemma http_server_stored_after_render_witness :
  let σ := one_dict {[ "server" := VStr "h1"; "http_port" := VInt 8080 ]} in
  let σ' := (render writing_runtime demo_templar "hello" 1%positive None "jinja2" σ).2 in
  exists s data_out σ1,
    settings demo_templar = Some s /\
    (if String.eqb "jinja2" "cheetah"
     then render_cheetah writing_runtime demo_templar "hello" 1%positive σ
     else render_jinja2 writing_runtime demo_templar "hello" 1%positive σ)
    = (Ok data_out, σ1) /\
    let table := deref (heap σ1) 1%positive in
    let server := default (VStr (server s)) (table !! "server") in
    let hp := default (VStr "80") (table !! "http_port") in
    heap σ'
    = <[1%positive :=
          <["http_server" :=
              if is_port_80 hp then server
              else VStr (py_str writing_runtime (heap σ1) server +:+ ":"
                         +:+ py_str writing_runtime (heap σ1) hp)]>
            table]> (heap σ1).
Proof.
  intros σ σ'.
  apply (http_server_stored_after_render writing_runtime demo_templar "hello" 1%positive
           None "jinja2" σ σ' "hello" "jinja2" "hello").
  - reflexivity.
  - reflexivity.
  - right. split; reflexivity.
  - by vm_compute.
Defined.

(** The context is read when the engine has run: a template that assigns
    to [server] decides what is stored, not the value the caller passed. *)
Example http_server_after_template_wrote :
  let σ := one_dict {[ "server" := VStr "h1"; "http_port" := VInt 8080 ]} in
  deref (heap (render writing_runtime demo_templar "x" 1%positive None "cheetah" σ).2)
    1%positive !! "http_server"
  = Some (VStr "changed:8080").
Proof. by vm_compute. Qed.

(** The three cases of the specification, run: no port, the number 8080,
    the string "80". *)
Example http_server_no_port :
  deref (heap (render echo_runtime demo_templar "x" 1%positive None "cheetah"
                 (one_dict {[ "server" := VStr "h1" ]})).2) 1%positive !! "http_server"
  = Some (VStr "h1").
Proof. by vm_compute. Qed.

Example http_server_8080 :
  deref (heap (render echo_runtime demo_templar "x" 1%positive None "cheetah"
                 (one_dict {[ "server" := VStr "h1"; "http_port" := VInt 8080 ]})).2)
    1%positive !! "http_server"
  = Some (VStr "h1:8080").
Proof. by vm_compute. Qed.

Example http_server_string_80 :
  deref (heap (render echo_runtime demo_templar "x" 1%positive None "cheetah"
                 (one_dict {[ "server" := VStr "h1"; "http_port" := VStr "80" ]})).2)
    1%positive !! "http_server"
  = Some (VStr "h1").
Proof. by vm_compute. Qed.

(** ** [template_universe] *)

Lemma with_universe_copy (h : gmap loc (gmap string value)) (l : loc)
      (table : gmap string value) :
  h !! l = Some table ->
  h !! fresh (dom h) = None /\
  fresh (dom h) <> l /\
  with_universe h l !! fresh (dom h) = Some table /\
  deref (with_universe h l) l !! "template_universe" = Some (VDict (fresh (dom h))).
Proof.
  intros Hl.
  assert (h !! fresh (dom h) = None) as Hfresh
    by (apply not_elem_of_dom, is_fresh).
  assert (fresh (dom h) <> l) as Hne by congruence.
  split; [done |]. split; [done |]. split.
  - unfold with_universe. rewrite lookup_insert_ne by done.
    rewrite lookup_insert_eq. unfold deref. by rewrite Hl.
  - by rewrite deref_with_universe, lookup_insert_eq.
Qed.

(** Up to the instantiation of the compiled template: when the import check
    passes, the source is prepared and the macros and the template compile,
    the template runs on the store with the universe injected, and what
    [render_cheetah] returns, logs and leaves is decided by that run. *)
Lemma render_cheetah_run
    (rt : Runtime) (self : Templar) (raw_data source macros : string)
    (search_table : loc) (σ : state) (version : Z * Z * Z) :
  check_lines self (PyStr.split raw_data NL) = None ->
  cheetah_source raw_data (deref (heap σ) search_table) = inr source ->
  macros_file rt = inr macros ->
  compile_macros rt macros = None ->
  compile_template rt source macros = None ->
  cheetah_version rt = inr version ->
  render_cheetah rt self raw_data search_table σ
  = let run := run_template rt source macros (version_at_least_2_4_2 version)
                 (with_universe (heap σ) search_table) search_table in
    match run.1 with
    | inr (data_out, errors) =>
        (Ok data_out,
         State run.2 errors
               (events σ ++ [ReadMacros; CompileMacros macros; CompileTemplate source;
                             RunTemplate]
                ++ match errors with
                   | [] => []
                   | _ :: _ =>
                       [LogWarning "errors were encountered rendering the template";
                        LogWarning (NL +:+ pformat rt errors)]
                   end))
    | inl e =>
        (Raise (CX "Error templating file, check cobbler.log for more details"),
         State run.2 (last_errors σ)
               (events σ ++ [ReadMacros; CompileMacros macros; CompileTemplate source;
                             RunTemplate; LogError (cheetah_exc rt e)]))
    end.
Proof.
  intros Hcheck Hsrc Hm Hcm Hct Hv.
  unfold render_cheetah, check_for_invalid_imports. run_monad.
  rewrite Hcheck. cbn [heap last_errors events].
  rewrite Hsrc, Hm. cbn [heap last_errors events]. rewrite Hcm.
  cbn [heap last_errors events]. rewrite Hct, Hv. cbn [heap last_errors events].
  rewrite deref_after_copy. fold (with_universe (heap σ) search_table).
  cbn zeta.
  destruct (run_template _ _ _ _ _ _) as [[e | [data_out [|err errors]]] h'];
    cbn [fst snd heap last_errors events];
    rewrite <- ?(assoc_L (++)); cbn [app]; by rewrite ?(right_id_L [] (++)).
Qed.



(** The copy, read back after a render that went through: it has the
    caller's one item and neither of the two keys the pipeline adds, while
    the context has both. *)
Example template_universe_run :
  let σ' := (render echo_runtime demo_templar "x" 1%positive None "cheetah"
               (one_dict {[ "server" := VStr "h1" ]})).2 in
  deref (heap σ') 1%positive !! "template_universe" = Some (VDict 2%positive) /\
  deref (heap σ') 1%positive !! "http_server" = Some (VStr "h1") /\
  heap σ' !! 2%positive = Some {[ "server" := VStr "h1" ]}.
Proof. by vm_compute. Qed.

(** ** Token substitution *)

Section Tokens.

Variable rt : Runtime.

Lemma set_order_elem (l : list string) (x : string) :
  x ∈ set_order rt l <-> x ∈ l.
Proof.
  rewrite <- (elem_of_remove_dups l).
  split; intros H.
  - eapply elem_of_Permutation_proper; [symmetry |]; [apply set_order_perm | done].
  - eapply elem_of_Permutation_proper; [apply set_order_perm | done].
Qed.

Lemma set_order_nil : set_order rt [] = [].
Proof. apply Permutation_nil_r. apply (set_order_perm rt []). Qed.

Lemma set_order_singleton (l : list string) (x : string) :
  x ∈ l -> (forall y, y ∈ l -> y = x) -> set_order rt l = [x].
Proof.
  intros Hx Hall.
  assert (remove_dups l = [x]) as Hrd.
  { pose proof (NoDup_remove_dups l) as Hnd.
    assert (forall y, y ∈ remove_dups l <-> y = x) as Hel.
    { intros y. rewrite elem_of_remove_dups. split; [apply Hall | by intros ->]. }
    destruct (remove_dups l) as [|a [|b t]].
    - exfalso. by apply (elem_of_nil x), Hel.
    - f_equal. apply Hel. left.
    - exfalso. apply NoDup_cons in Hnd as [Hnot _].
      assert (a = x) as -> by (apply Hel; left).
      assert (b = x) as -> by (apply Hel; right; left).
      apply Hnot. left. }
  pose proof (set_order_perm rt l) as Hp. rewrite Hrd in Hp.
  by apply Permutation_singleton_r.
Qed.


Lemma match_here_nonempty (s m : string) :
  Regex.match_here s = Some m -> m <> "".
Proof.
  unfold Regex.match_here. destruct (String.prefix "@@" s) eqn:Hp; [| done].
  destruct (Regex.lazy_close _) as [n|]; [| done].
  intros [= <-]. destruct s as [|c s]; [done |].
  by replace (n + 4)%nat with (S (n + 3)) by lia.
Qed.

Lemma finditer_go_nonempty (s : string) (k : nat) (m : string) :
  m ∈ Regex.finditer_go s k -> m <> "".
Proof.
  revert k. induction s as [|c s IH]; intros k; cbn [Regex.finditer_go].
  - by intros ?%elem_of_nil.
  - destruct k as [|k]; [| apply IH].
    destruct (Regex.match_here (String c s)) as [m'|] eqn:Hm; [| apply IH].
    intros [-> | Hin]%elem_of_cons; [by eapply match_here_nonempty | by eapply IH].
Qed.

Lemma substitute_one_string (table : gmap string value) (data_out tok v : string) :
  tok <> "" ->
  table !! token_key tok = Some (VStr v) ->
  substitute_one table data_out tok = inr (replace_every_occurrence tok v data_out).
Proof.
  intros Hne Hv. unfold substitute_one, replace_every_occurrence. rewrite Hv.
  by rewrite PyStrFacts.replace_join_split.
Qed.

Lemma substitute_loop_strings (table : gmap string value) (toks : list string)
      (data_out : string) :
  (forall tok, tok ∈ toks -> tok <> "" /\ exists v, table !! token_key tok = Some (VStr v)) ->
  substitute_loop table toks data_out = inr (replace_tokens table toks data_out).
Proof.
  revert data_out. induction toks as [|tok toks IH]; intros data_out Hall; [done |].
  destruct (Hall tok) as [Hne [v Hv]]; [left |].
  cbn [substitute_loop replace_tokens].
  rewrite (substitute_one_string _ _ _ v) by done.
  unfold string_value. rewrite Hv. cbn [default].
  apply IH. intros t Ht. apply Hall. by right.
Qed.

(** The loop stops at the first token it cannot replace. *)
Lemma substitute_loop_fails (table : gmap string value) (toks : list string)
      (data_out tok : string) :
  tok ∈ toks ->
  table !! token_key tok = None ->
  exists bad,
    bad ∈ toks /\
    ((table !! token_key bad = None /\
      substitute_loop table toks data_out = inl (KeyError (token_key bad))) \/
     (exists v msg, table !! token_key bad = Some v /\ (forall s, v <> VStr s) /\
        substitute_loop table toks data_out = inl (TypeError msg))).
Proof.
  revert data_out. induction toks as [|t toks IH]; intros data_out Hin Hnone;
    [by apply elem_of_nil in Hin |].
  cbn [substitute_loop]. unfold substitute_one.
  destruct (table !! token_key t) as [[v | n | | l] |] eqn:Ht.
  - apply elem_of_cons in Hin as [-> | Hin]; [congruence |].
    destruct (IH (PyStr.replace data_out t v) Hin Hnone) as (bad & Hbad & Hres).
    exists bad. split; [by right | exact Hres].
  - exists t. split; [left |]. right. eexists _, _. by rewrite Ht.
  - exists t. split; [left |]. right. eexists _, _. by rewrite Ht.
  - exists t. split; [left |]. right. eexists _, _. by rewrite Ht.
  - exists t. split; [left |]. left. by rewrite Ht.
Qed.

End Tokens.

(** X28.  When every token the regular expression finds
    in the rendered text has its key in the context with a string value, the
    substitution step succeeds and its result is the text in which, for one
    token after the other in the set's order, every occurrence of the whole
    token, scanning from the left, has been replaced by that string.  A text
    with no token is returned unchanged; a text with one token (any number
    of times) is cut at the token and joined with the value. *)
Theorem tokens_with_string_values_are_replaced
    (rt : Runtime) (table : gmap string value) (data_out : string) :
  (forall tok, tok ∈ Regex.finditer data_out ->
     exists v, table !! token_key tok = Some (VStr v)) ->
  substitute_tokens rt table data_out
  = inr (replace_tokens table (set_order rt (Regex.finditer data_out)) data_out) /\
  (Regex.finditer data_out = [] -> substitute_tokens rt table data_out = inr data_out) /\
  (forall tok v,
     tok ∈ Regex.finditer data_out ->
     (forall t, t ∈ Regex.finditer data_out -> t = tok) ->
     table !! token_key tok = Some (VStr v) ->
     substitute_tokens rt table data_out = inr (PyStr.join v (PyStr.split data_out tok)) /\
     data_out = PyStr.join tok (PyStr.split data_out tok)).
Proof.
  intros Hall.
  assert (substitute_tokens rt table data_out
          = inr (replace_tokens table (set_order rt (Regex.finditer data_out)) data_out))
    as Hrun.
  { unfold substitute_tokens. apply substitute_loop_strings.
    intros tok Htok%set_order_elem. split; [| by apply Hall].
    by eapply finditer_go_nonempty. }
  split; [exact Hrun |]. split.
  - intros Hnone. rewrite Hrun, Hnone, set_order_nil. reflexivity.
  - intros tok v Htok Honly Hv. split.
    + rewrite Hrun, (set_order_singleton rt _ tok) by done.
      cbn [replace_tokens]. unfold string_value. by rewrite Hv.
    + symmetry. apply PyStrFacts.join_split. by eapply finditer_go_nonempty.
Qed.

Lemma tokens_with_string_values_are_replaced_witness :
  substitute_tokens echo_runtime {[ "name" := VStr "alpha" ]} "a @@name@@ b @@name@@"
  = inr (replace_tokens {[ "name" := VStr "alpha" ]}
           (set_order echo_runtime (Regex.finditer "a @@name@@ b @@name@@"))
           "a @@name@@ b @@name@@") /\
  (Regex.finditer "a @@name@@ b @@name@@" = [] ->
   substitute_tokens echo_runtime {[ "name" := VStr "alpha" ]} "a @@name@@ b @@name@@"
   = inr "a @@name@@ b @@name@@") /\
  (forall tok v,
     tok ∈ Regex.finditer "a @@name@@ b @@name@@" ->
     (forall t, t ∈ Regex.finditer "a @@name@@ b @@name@@" -> t = tok) ->
     ({[ "name" := VStr "alpha" ]} : gmap string value) !! token_key tok = Some (VStr v) ->
     substitute_tokens echo_runtime {[ "name" := VStr "alpha" ]} "a @@name@@ b @@name@@"
     = inr (PyStr.join v (PyStr.split "a @@name@@ b @@name@@" tok)) /\
     "a @@name@@ b @@name@@" = PyStr.join tok (PyStr.split "a @@name@@ b @@name@@" tok)).
Proof.
  apply (tokens_with_string_values_are_replaced echo_runtime
           {[ "name" := VStr "alpha" ]} "a @@name@@ b @@name@@").
  intros tok Htok. exists "alpha".
  change (Regex.finditer "a @@name@@ b @@name@@") with ["@@name@@"; "@@name@@"] in Htok.
  apply elem_of_cons in Htok as [-> | Htok]; [reflexivity |].
  apply elem_of_cons in Htok as [-> | Htok]; [reflexivity |].
  by apply elem_of_nil in Htok.
Defined.

(** The example of the specification, run. *)
Example token_round_trip :
  substitute_tokens echo_runtime {[ "name" := VStr "alpha" ]} "a @@name@@ b @@name@@"
  = inr "a alpha b alpha".
Proof. by vm_compute. Qed.

(** C4, on the code.  The value is handed to [str.replace] as it is: a
    value that is not a string is not turned into text, the call raises
    [TypeError].  With [http_port] the number 8080 and the rendered text
    "port=@@http_port@@" the render raises instead of returning "port=8080",
    although the same call has just formatted the same number as text for
    [http_server] (lines 139-140): the context holds "192.168.1.1:8080"
    when the substitution fails.  With a string value the token is
    replaced. *)
Theorem token_with_number_value_raises :
  Regex.finditer "port=@@http_port@@" = ["@@http_port@@"] /\
  ({[ "http_port" := VInt 8080 ]} : gmap string value) !! token_key "@@http_port@@"
  = Some (VInt 8080) /\
  substitute_tokens echo_runtime {[ "http_port" := VInt 8080 ]} "port=@@http_port@@"
  = inl (TypeError "replace() argument 2 must be str, not int") /\
  (render echo_runtime demo_templar "port=@@http_port@@" 1%positive None "jinja2"
     (one_dict {[ "http_port" := VInt 8080 ]})).1
  = Raise (TypeError "replace() argument 2 must be str, not int") /\
  deref (heap (render echo_runtime demo_templar "port=@@http_port@@" 1%positive None
                 "jinja2" (one_dict {[ "http_port" := VInt 8080 ]})).2) 1%positive
    !! "http_server"
  = Some (VStr "192.168.1.1:8080") /\
  (render echo_runtime demo_templar "port=@@http_port@@" 1%positive None "jinja2"
     (one_dict {[ "http_port" := VStr "8080" ]})).1
  = Ok "port=8080".
Proof. repeat split; by vm_compute. Qed.

(** The substitution step with a missing key, when every key that is there
    has a string value: the loop ends at a token without a key. *)
Lemma substitute_tokens_missing_key
    (rt : Runtime) (context : gmap string value) (data_out tok : string) :
  tok ∈ Regex.finditer data_out ->
  context !! token_key tok = None ->
  (forall t v, t ∈ Regex.finditer data_out -> context !! token_key t = Some v ->
               exists x, v = VStr x) ->
  exists missing,
    missing ∈ Regex.finditer data_out /\
    context !! token_key missing = None /\
    substitute_tokens rt context data_out = inl (KeyError (token_key missing)).
Proof.
  intros Htok Hnone Hstr.
  destruct (substitute_loop_fails context (set_order rt (Regex.finditer data_out))
              data_out tok) as (bad & Hbad & Hres);
    [by apply set_order_elem | done |].
  apply set_order_elem in Hbad.
  destruct Hres as [(Hb & Hloop) | (v & msg & Hb & Hv & _)].
  - by exists bad.
  - destruct (Hstr bad v Hbad Hb) as [x ->]. by destruct (Hv x).
Qed.

(** C7, as the code has it.  Settings are configured, an engine was selected
    and ran, and it returned a text [data_out], leaving the state [σ1].  The
    context the tokens are looked up in is the context as the engine left
    it with [http_server] stored by the pipeline.  When the text has a token
    whose key is not in that context, and every token whose key is there
    has a string value, [render] raises the [KeyError] of a token of the
    text whose key is missing: no text is returned, and nothing is logged
    or written after the engine (the events are those of [σ1]). *)
Theorem missing_token_key_aborts
    (rt : Runtime) (self : Templar) (s : Settings) (data_input : string)
    (search_table : loc) (out_path : option string)
    (template_type engine source data_out : string) (σ σ1 : state) (tok : string) :
  settings self = Some s ->
  supported template_type = true ->
  select_engine self data_input template_type = inr (engine, source) ->
  engine = "cheetah" \/ (engine = "jinja2" /\ jinja2_available rt = true) ->
  (if String.eqb engine "cheetah"
   then render_cheetah rt self source search_table σ
   else render_jinja2 rt self source search_table σ) = (Ok data_out, σ1) ->
  let context :=
    <["http_server" := http_server_of rt s (heap σ1) (deref (heap σ1) search_table)]>
      (deref (heap σ1) search_table) in
  tok ∈ Regex.finditer data_out ->
  context !! token_key tok = None ->
  (forall t v, t ∈ Regex.finditer data_out -> context !! token_key t = Some v ->
               exists x, v = VStr x) ->
  exists missing,
    missing ∈ Regex.finditer data_out /\
    context !! token_key missing = None /\
    render rt self data_input search_table out_path template_type σ
    = (Raise (KeyError (token_key missing)),
       State (<[search_table := context]> (heap σ1)) (last_errors σ1) (events σ1)).
Proof.
  intros Hs Hsup Hsel Heng Hengine context Htok Hnone Hstr.
  destruct (substitute_tokens_missing_key rt context data_out tok Htok Hnone Hstr)
    as (missing & Hin & Hmiss & Hsub).
  exists missing. split; [done |]. split; [done |].
  assert (post_filter rt self data_out search_table out_path σ1
          = (Raise (KeyError (token_key missing)),
             State (<[search_table := context]> (heap σ1)) (last_errors σ1) (events σ1)))
    as Hpf.
  { unfold post_filter, set_http_server. run_monad. rewrite Hs.
    cbn [heap last_errors events]. rewrite deref_insert_eq.
    fold (http_server_of rt s (heap σ1) (deref (heap σ1) search_table)).
    fold context. by rewrite Hsub. }
  unfold render. rewrite Hsup, Hsel. cbn [negb].
  unfold render_with. run_monad. cbn [lift].
  destruct Heng as [-> | [-> Hav]]; cbn [String.eqb Ascii.eqb Bool.eqb] in *.
  - by rewrite Hengine.
  - by rewrite Hav, Hengine.
Qed.

Lemma missing_token_key_aborts_witness :
  let σ := one_dict {[ "server" := VStr "h1" ]} in
  let σ1 := (render_jinja2 echo_runtime demo_templar "x=@@nowhere@@" 1%positive σ).2 in
  let context :=
    <["http_server" := http_server_of echo_runtime demo_settings (heap σ1)
                         (deref (heap σ1) 1%positive)]>
      (deref (heap σ1) 1%positive) in
  exists missing,
    missing ∈ Regex.finditer "x=@@nowhere@@" /\
    context !! token_key missing = None /\
    render echo_runtime demo_templar "x=@@nowhere@@" 1%positive None "jinja2" σ
    = (Raise (KeyError (token_key missing)),
       State (<[1%positive := context]> (heap σ1)) (last_errors σ1) (events σ1)).
Proof.
  intros σ σ1.
  apply (missing_token_key_aborts echo_runtime demo_templar demo_settings "x=@@nowhere@@"
           1%positive None "jinja2" "jinja2" "x=@@nowhere@@" "x=@@nowhere@@" σ σ1
           "@@nowhere@@").
  - reflexivity.
  - reflexivity.
  - reflexivity.
  - right. split; reflexivity.
  - by vm_compute.
  - by_eval.
  - by vm_compute.
  - intros t v Ht.
    change (Regex.finditer "x=@@nowhere@@") with ["@@nowhere@@"] in Ht.
    apply list_elem_of_singleton in Ht as ->. by vm_compute.
Defined.

(** A render that the sentence "a token whose key is not in the context
    ends the render with a lookup failure" does not describe: the caller's
    context has no [http_server], the rendered text has the token
    [@@http_server@@], and the render returns, because the pipeline stores
    [http_server] in the context before the tokens are looked up. *)
Lemma missing_key_render_without_key_error :
  ({[ "server" := VStr "h1" ]} : gmap string value) !! token_key "@@http_server@@" = None /\
  Regex.finditer "url=@@http_server@@" = ["@@http_server@@"] /\
  render echo_runtime demo_templar "url=@@http_server@@" 1%positive None "jinja2"
    (one_dict {[ "server" := VStr "h1" ]})
  = (Ok "url=h1",
     State {[ 1%positive := {[ "server" := VStr "h1"; "http_server" := VStr "h1" ]} ]} []
           [Jinja2Render None "url=@@http_server@@"]).
Proof. repeat split; by vm_compute. Qed.

(** The loop stops at the first token it cannot replace, in the order the
    set yields the tokens. *)
Example token_loop_stops_at_first_failure :
  (render echo_runtime demo_templar "@@a@@ @@b@@" 1%positive None "jinja2"
     (one_dict {[ "a" := VStr "x" ]})).1
  = Raise (KeyError "b").
Proof. by vm_compute. Qed.

(** ** The alias [TEMPLATE::] and the nfs rewrite *)

Module AliasFacts.
Import PyStr PyStrFacts.

Lemma find_from_found (sub s : string) (i : Z) :
  0 <= i -> (find_from sub s i =? -1) = negb (found sub s).
Proof.
  revert i. induction s as [|c s IH]; intros i Hi; cbn [find_from found].
  - destruct (String.prefix sub ""); [| done].
    cbn [orb negb]. apply Z.eqb_neq. lia.
  - destruct (String.prefix sub (String c s)).
    + cbn [orb negb]. apply Z.eqb_neq. lia.
    + cbn [orb]. apply IH. lia.
Qed.

Lemma find_found (s sub : string) :
  negb (find s sub =? -1) = found sub s.
Proof. unfold find. rewrite find_from_found by lia. apply negb_involutive. Qed.


Lemma prefix_head_mismatch (e d : ascii) (m s : string) :
  e <> d -> String.prefix (String e m) (String d s) = false.
Proof. intros H. cbn [String.prefix]. by destruct (ascii_dec e d). Qed.

Lemma mem_char_head (c : ascii) (a : string) : mem_char c (String c a) = true.
Proof. cbn [mem_char]. by rewrite Ascii.eqb_refl. Qed.

Lemma not_mem_char_ne (e d : ascii) (a : string) :
  mem_char e a = false -> mem_char d a = true -> e <> d.
Proof. intros He Hd ->. congruence. Qed.

(** An occurrence of [m] cannot start inside [a]. *)
Lemma found_skip (m a x : string) :
  m <> "" -> no_char_of m a = true -> found m (a +:+ x) = found m x.
Proof.
  intros Hne Hno. destruct m as [|e m]; [done |].
  cbn [no_char_of] in Hno. apply andb_true_iff in Hno as [He%negb_true_iff _].
  induction a as [|d a IH]; [done |].
  cbn [mem_char] in He. apply orb_false_iff in He as [Hed%Ascii.eqb_neq Ha].
  change (String d a +:+ x) with (String d (a +:+ x)). cbn [found].
  rewrite prefix_head_mismatch by done. by apply IH.
Qed.

Section Replace.

Variables old new : string.
Hypothesis old_nonempty : old <> "".
Hypothesis new_nonempty : new <> "".

(** Replacing does not change whether a text starts with [m]. *)
Lemma prefix_replace (m s : string) :
  no_char_of m old = true -> no_char_of m new = true ->
  String.prefix m (replace_go old new s 0) = String.prefix m s.
Proof.
  revert s. induction m as [|e m IH]; intros s Ho Hn.
  - by rewrite !prefix_nil.
  - cbn [no_char_of] in Ho, Hn.
    apply andb_true_iff in Ho as [Heo%negb_true_iff Ho].
    apply andb_true_iff in Hn as [Hen%negb_true_iff Hn].
    destruct s as [|d s]; [done |].
    destruct (String.prefix old (String d s)) eqn:Hp.
    + destruct (prefix_inv _ _ Hp) as [r ->].
      rewrite replace_go_hit by done.
      destruct old as [|o old']; [done |]. destruct new as [|n new']; [done |].
      change (String o old' +:+ r) with (String o (old' +:+ r)).
      change (String n new' +:+ replace_go (String o old') (String n new') r 0)
        with (String n (new' +:+ replace_go (String o old') (String n new') r 0)).
      rewrite !prefix_head_mismatch; [done | |].
      * eapply not_mem_char_ne; [exact Heo | apply mem_char_head].
      * eapply not_mem_char_ne; [exact Hen | apply mem_char_head].
    + rewrite replace_go_miss by done. cbn [String.prefix].
      destruct (ascii_dec e d); [by apply IH | done].
Qed.

(** Replacing neither creates nor destroys an occurrence of [m]. *)
Lemma found_replace (m s : string) :
  m <> "" -> no_char_of m old = true -> no_char_of m new = true ->
  found m (replace_go old new s 0) = found m s.
Proof.
  intros Hm Ho Hn. revert s.
  apply (scan_ind old); [done | done | intros r IH | intros c s Hp IH].
  - rewrite replace_go_hit by done. by rewrite !found_skip, IH.
  - rewrite replace_go_miss by done. cbn [found]. rewrite IH. f_equal.
    destruct m as [|e m]; [done |]. cbn [String.prefix].
    destruct (ascii_dec e c); [| done].
    cbn [no_char_of] in Ho, Hn.
    apply andb_true_iff in Ho as [_ Ho]. apply andb_true_iff in Hn as [_ Hn].
    by apply prefix_replace.
Qed.

(** The first piece of a split is where the text starts. *)
Lemma split_head_prefix (s sep : string) :
  sep <> "" -> exists t, s = hd "" (split s sep) +:+ t.
Proof.
  intros Hsep. pose proof (join_split s sep Hsep) as Hj.
  rewrite (split_cons s sep) in Hj.
  destruct (tl (split s sep)) as [|y l].
  - exists "". cbn [join] in Hj. by rewrite app_nil_r.
  - rewrite join_cons_cons in Hj. by eexists.
Qed.

Lemma split_app_no_sep (c : ascii) (a x : string) :
  mem_char c a = false ->
  split (a +:+ x) (String c "")
  = (a +:+ hd "" (split x (String c ""))) :: tl (split x (String c "")).
Proof.
  induction a as [|d a IH]; intros Hc; [apply split_cons |].
  cbn [mem_char] in Hc. apply orb_false_iff in Hc as [Hcd%Ascii.eqb_neq Ha].
  change (String d a +:+ x) with (String d (a +:+ x)).
  rewrite split_miss by (by apply prefix_head_mismatch).
  by rewrite IH.
Qed.

(** Replacing works line by line when neither string has the line
    separator in it. *)
Lemma split_replace (c : ascii) (s : string) :
  mem_char c old = false -> mem_char c new = false ->
  split (replace_go old new s 0) (String c "")
  = map (fun line => replace_go old new line 0) (split s (String c "")).
Proof.
  intros Hco Hcn. revert s.
  apply (scan_ind old); [done | done | intros r IH | intros d s Hp IH].
  - assert (hd "" (split (replace_go old new r 0) (String c ""))
            = replace_go old new (hd "" (split r (String c ""))) 0) as Hh
      by (by rewrite IH).
    assert (tl (split (replace_go old new r 0) (String c ""))
            = map (fun line => replace_go old new line 0) (tl (split r (String c ""))))
      as Ht by (by rewrite IH).
    rewrite replace_go_hit by done. rewrite !split_app_no_sep by done.
    cbn [map]. rewrite replace_go_hit by done. by rewrite Hh, Ht.
  - assert (hd "" (split (replace_go old new s 0) (String c ""))
            = replace_go old new (hd "" (split s (String c ""))) 0) as Hh
      by (by rewrite IH).
    assert (tl (split (replace_go old new s 0) (String c ""))
            = map (fun line => replace_go old new line 0) (tl (split s (String c ""))))
      as Ht by (by rewrite IH).
    rewrite replace_go_miss by done.
    destruct (ascii_dec c d) as [<- | Hcd].
    + change (String c (replace_go old new s 0))
        with (String c "" +:+ replace_go old new s 0).
      change (String c s) with (String c "" +:+ s).
      rewrite !split_hit by done. cbn [map]. by rewrite IH.
    + rewrite !split_miss by (by apply prefix_head_mismatch).
      cbn [map]. rewrite Hh, Ht. f_equal.
      rewrite replace_go_miss; [done |].
      destruct (String.prefix old (String d (hd "" (split s (String c ""))))) eqn:Hq;
        [| done].
      destruct (split_head_prefix s (String c "")) as [t Hst]; [done |].
      rewrite Hst in Hp.
      change (String d (?a +:+ t)) with (String d a +:+ t) in Hp.
      by rewrite prefix_app_l in Hp.
Qed.

End Replace.

End AliasFacts.


Module NfsFacts.
Import PyStr PyStrFacts AliasFacts.

(** The alias has no newline in it: it is replaced line by line. *)
Lemma alias_lines (raw_data : string) :
  split (replace raw_data "TEMPLATE::" "$") NL = map alias (split raw_data NL).
Proof. apply (split_replace "TEMPLATE::" "$"); done. Qed.

(** The alias shares no character with the two markers: a line has them
    after the replacement exactly when it had them before. *)
Lemma alias_markers (line : string) :
  has_url_markers (alias line) = has_url_markers line.
Proof.
  unfold has_url_markers, alias. rewrite !find_found.
  change (replace line "TEMPLATE::" "$") with (replace_go "TEMPLATE::" "$" line 0).
  by rewrite !found_replace.
Qed.

Lemma split_go_absent (sep s : string) (b : option nat) :
  found sep s = false -> split_go sep s 0 b = (s, []).
Proof.
  induction s as [|c s IH]; intros H; [done |].
  cbn [found] in H. apply orb_false_iff in H as [Hp Hf].
  rewrite split_go_miss by done. by rewrite IH.
Qed.

Lemma nfs_loop_ok (tree : string) (f : string -> string) :
  (forall line, nfs_line tree line = inr (f line)) ->
  forall lines newdata,
    nfs_loop tree lines newdata = inr (newdata +:+ concat_lines (map f lines)).
Proof.
  intros Hf lines. induction lines as [|line lines IH]; intros newdata.
  - cbn. by rewrite app_nil_r.
  - cbn [nfs_loop map concat_lines]. rewrite Hf, IH.
    by rewrite !app_assoc.
Qed.

Lemma nfs_loop_fails (tree : string) (e : exn) (lines : list string) (line : string) :
  (forall l, has_url_markers l = true -> nfs_line tree l = inl e) ->
  line ∈ lines -> has_url_markers line = true ->
  forall newdata, nfs_loop tree lines newdata = inl e.
Proof.
  intros He Hin Hm. induction lines as [|l lines IH]; intros newdata;
    [by apply elem_of_nil in Hin |].
  cbn [nfs_loop]. destruct (has_url_markers l) eqn:Hl.
  - by rewrite He.
  - unfold nfs_line at 1. rewrite Hl.
    apply elem_of_cons in Hin as [-> | Hin]; [congruence |]. by apply IH.
Qed.

End NfsFacts.

(** What [render_cheetah] compiles is this source: when the import check
    passes and the macro file is read and compiled, the third thing the call
    does is to compile the template from [cheetah_source]. *)
Lemma render_cheetah_compiles_source
    (rt : Runtime) (self : Templar) (raw_data source macros : string)
    (search_table : loc) (σ σ' : state) (r : result string) :
  check_lines self (PyStr.split raw_data NL) = None ->
  cheetah_source raw_data (deref (heap σ) search_table) = inr source ->
  macros_file rt = inr macros ->
  compile_macros rt macros = None ->
  render_cheetah rt self raw_data search_table σ = (r, σ') ->
  exists later,
    events σ' = (events σ ++ [ReadMacros; CompileMacros macros; CompileTemplate source]
                          ++ later)%list.
Proof.
  intros Hcheck Hsrc Hm Hcm. unfold render_cheetah, check_for_invalid_imports.
  run_monad. rewrite Hcheck. cbn [heap last_errors events].
  rewrite Hsrc, Hm. cbn [heap last_errors events]. rewrite Hcm.
  cbn [heap last_errors events].
  intros H. repeat (case_match; simplify_eq/=);
    rewrite <- ?(assoc_L (++)); cbn [app]; eauto.
Qed.

(** How the loop rewrites a line when [tree] is nfs://myserver:/export/dir. *)
Lemma nfs_source_myserver (raw_data : string) (table : gmap string value) :
  table !! "tree" = Some (VStr "nfs://myserver:/export/dir") ->
  cheetah_source raw_data table
  = inr ("#errorCatcher ListErrors" +:+ NL +:+
         concat_lines
           (map (fun line =>
                   if has_url_markers line
                   then "nfs --server myserver --dir /export/dir" +:+ NL +:+
                        "#url --url=nfs://myserver:/export/dir"
                   else alias line)
                (PyStr.split raw_data NL))).
Proof.
  intros Htree. unfold cheetah_source. rewrite Htree.
  change (PyStr.startswith "nfs://myserver:/export/dir" "nfs://") with true.
  cbn match.
  rewrite (NfsFacts.nfs_loop_ok "nfs://myserver:/export/dir"
             (fun line =>
                if has_url_markers line
                then "nfs --server myserver --dir /export/dir" +:+ NL +:+
                     "#url --url=nfs://myserver:/export/dir"
                else line)).
  - rewrite NfsFacts.alias_lines, map_map.
    change ("" +:+ ?x) with x.
    erewrite map_ext; [reflexivity |].
    intros line. cbn beta. by rewrite NfsFacts.alias_markers.
  - intros line. unfold nfs_line. by destruct (has_url_markers line).
Qed.

(** C8.  With [tree] set to nfs://myserver:/export/dir in the context, the
    source the Cheetah render prepares is the error catcher directive
    followed by the template's lines, each ended by a newline: a line that
    has both "--url" and "url " in it is replaced by the nfs directive for
    myserver and /export/dir and, on the next line, the comment that keeps
    the original path; every other line only has its [TEMPLATE::] aliases
    replaced.  This is the text that is compiled: when the import check
    passes and the macro file is read and compiled, the call's third step
    is the compilation of exactly this source. *)
Theorem nfs_tree_rewrites_url_lines
    (rt : Runtime) (self : Templar) (raw_data : string) (search_table : loc)
    (σ : state) :
  deref (heap σ) search_table !! "tree" = Some (VStr "nfs://myserver:/export/dir") ->
  let source :=
    "#errorCatcher ListErrors" +:+ NL +:+
    concat_lines
      (map (fun line =>
              if has_url_markers line
              then "nfs --server myserver --dir /export/dir" +:+ NL +:+
                   "#url --url=nfs://myserver:/export/dir"
              else alias line)
           (PyStr.split raw_data NL)) in
  cheetah_source raw_data (deref (heap σ) search_table) = inr source /\
  forall macros r σ',
    check_lines self (PyStr.split raw_data NL) = None ->
    macros_file rt = inr macros ->
    compile_macros rt macros = None ->
    render_cheetah rt self raw_data search_table σ = (r, σ') ->
    exists later,
      events σ' = (events σ ++ [ReadMacros; CompileMacros macros; CompileTemplate source]
                            ++ later)%list.
Proof.
  intros Htree source.
  pose proof (nfs_source_myserver raw_data _ Htree) as Hsrc.
  split; [exact Hsrc |].
  intros macros r σ' Hcheck Hm Hcm Hrun.
  by eapply render_cheetah_compiles_source.
Qed.

Lemma nfs_tree_rewrites_url_lines_witness :
  let raw_data := "install" +:+ NL +:+ "url --url=TEMPLATE::tree" +:+ NL
                  +:+ "lang TEMPLATE::lang" in
  let σ := one_dict {[ "tree" := VStr "nfs://myserver:/export/dir" ]} in
  let source :=
    "#errorCatcher ListErrors" +:+ NL +:+
    concat_lines
      (map (fun line =>
              if has_url_markers line
              then "nfs --server myserver --dir /export/dir" +:+ NL +:+
                   "#url --url=nfs://myserver:/export/dir"
              else alias line)
           (PyStr.split raw_data NL)) in
  cheetah_source raw_data (deref (heap σ) 1%positive) = inr source /\
  forall macros r σ',
    check_lines demo_templar (PyStr.split raw_data NL) = None ->
    macros_file echo_runtime = inr macros ->
    compile_macros echo_runtime macros = None ->
    render_cheetah echo_runtime demo_templar raw_data 1%positive σ = (r, σ') ->
    exists later,
      events σ' = (events σ ++ [ReadMacros; CompileMacros macros; CompileTemplate source]
                            ++ later)%list.
Proof.
  apply (nfs_tree_rewrites_url_lines echo_runtime demo_templar
           ("install" +:+ NL +:+ "url --url=TEMPLATE::tree" +:+ NL +:+ "lang TEMPLATE::lang")
           1%positive (one_dict {[ "tree" := VStr "nfs://myserver:/export/dir" ]})).
  reflexivity.
Defined.

(** The same template, run: the rewritten source, line by line. *)
Example nfs_rewrite_run :
  cheetah_source ("install" +:+ NL +:+ "url --url=TEMPLATE::tree" +:+ NL +:+ "lang TEMPLATE::lang")
    {[ "tree" := VStr "nfs://myserver:/export/dir" ]}
  = inr (concat_lines ["#errorCatcher ListErrors";
                       "install";
                       "nfs --server myserver --dir /export/dir";
                       "#url --url=nfs://myserver:/export/dir";
                       "lang $lang"]).
Proof. by vm_compute. Qed.

(** And the whole call: what it does, in order, and what it returns when
    the template prints its source. *)
Example nfs_render_run :
  let raw_data := "url --url=TEMPLATE::tree" in
  let σ := one_dict {[ "tree" := VStr "nfs://myserver:/export/dir" ]} in
  let source := concat_lines ["#errorCatcher ListErrors";
                              "nfs --server myserver --dir /export/dir";
                              "#url --url=nfs://myserver:/export/dir"] in
  (render_cheetah echo_runtime demo_templar raw_data 1%positive σ).1 = Ok source /\
  events (render_cheetah echo_runtime demo_templar raw_data 1%positive σ).2
  = [ReadMacros; CompileMacros ""; CompileTemplate source; RunTemplate].
Proof. by vm_compute. Qed.

Lemma check_lines_raises_CX (self : Templar) (lines : list string) (e : exn) :
  check_lines self lines = Some e -> exists msg, e = CX msg.
Proof.
  induction lines as [|line lines IH]; [done |]. cbn [check_lines].
  destruct (check_line self line) as [e'|] eqn:Hl; [| exact IH].
  intros [= <-]. unfold check_line in Hl.
  repeat (case_match; simplify_eq/=); eauto.
Qed.

(** C9.  When [tree] is "nfs://" followed by a text with no ":" in it and a
    line of the template has both markers, [render_cheetah] raises [CX] and
    leaves the state as it found it: nothing is read, compiled or run and
    the context is untouched.  Unless the import check has raised first, the
    message is the one about the syntax of the NFS path. *)
Theorem malformed_nfs_tree_raises
    (rt : Runtime) (self : Templar) (raw_data : string) (search_table : loc)
    (σ : state) (rest line : string) :
  deref (heap σ) search_table !! "tree" = Some (VStr ("nfs://" +:+ rest)) ->
  PyStr.find rest ":" = -1 ->
  line ∈ PyStr.split raw_data NL ->
  has_url_markers line = true ->
  exists msg,
    render_cheetah rt self raw_data search_table σ = (Raise (CX msg), σ) /\
    (check_lines self (PyStr.split raw_data NL) = None ->
     msg = "Invalid syntax for NFS path given during import: nfs://" +:+ rest).
Proof.
  intros Htree Hrest Hin Hm.
  unfold render_cheetah, check_for_invalid_imports. run_monad.
  destruct (check_lines self (PyStr.split raw_data NL)) as [e|] eqn:Hcheck.
  { destruct (check_lines_raises_CX _ _ _ Hcheck) as [msg ->]. by exists msg. }
  eexists. split; [| reflexivity].
  cbn [heap]. unfold cheetah_source. rewrite Htree.
  unfold PyStr.startswith. rewrite PyStrFacts.prefix_app.
  rewrite NfsFacts.alias_lines.
  rewrite (NfsFacts.nfs_loop_fails ("nfs://" +:+ rest)
             (CX ("Invalid syntax for NFS path given during import: nfs://" +:+ rest))
             _ (alias line)); [done | | | ].
  - intros l Hl. unfold nfs_line. rewrite Hl.
    change (PyStr.drop 6 ("nfs://" +:+ rest)) with rest.
    unfold PyStr.split_max. rewrite NfsFacts.split_go_absent; [done |].
    rewrite <- AliasFacts.find_found, Hrest. reflexivity.
  - apply list_elem_of_fmap. by exists line.
  - by rewrite NfsFacts.alias_markers.
Qed.

Lemma malformed_nfs_tree_raises_witness :
  exists msg,
    render_cheetah echo_runtime demo_templar ("url --url=x" +:+ NL +:+ "text") 1%positive
      (one_dict {[ "tree" := VStr ("nfs://" +:+ "myserver/export/dir") ]})
    = (Raise (CX msg), one_dict {[ "tree" := VStr ("nfs://" +:+ "myserver/export/dir") ]}) /\
    (check_lines demo_templar (PyStr.split ("url --url=x" +:+ NL +:+ "text") NL) = None ->
     msg = "Invalid syntax for NFS path given during import: nfs://" +:+ "myserver/export/dir").
Proof.
  apply (malformed_nfs_tree_raises echo_runtime demo_templar
           ("url --url=x" +:+ NL +:+ "text") 1%positive
           (one_dict {[ "tree" := VStr ("nfs://" +:+ "myserver/export/dir") ]})
           "myserver/export/dir" "url --url=x").
  - by vm_compute.
  - by vm_compute.
  - by_eval.
  - by vm_compute.
Defined.

(** ** The same facts at the entry point *)

(** The import check through [render]: when the engine is Cheetah, an
    offending line of the source that is passed on ends the call before
    anything else is done. *)
Lemma render_rejects_import
    (rt : Runtime) (self : Templar) (s : Settings) (data_input : string)
    (search_table : loc) (out_path : option string) (template_type source : string)
    (σ : state) (line : string) :
  settings self = Some s ->
  supported template_type = true ->
  select_engine self data_input template_type = inr ("cheetah", source) ->
  line ∈ PyStr.split source NL ->
  PyStr.find line "#import" <> -1 ->
  (import_target line ∉ cheetah_import_whitelist s) ->
  exists bad,
    (import_target bad ∉ cheetah_import_whitelist s) /\
    render rt self data_input search_table out_path template_type σ
    = (Raise (CX ("potentially insecure import in template: " +:+ import_target bad)), σ).
Proof.
  intros Hs Hsup Hsel Hin Hfind Hnot.
  destruct (check_lines_rejects self s Hs _ _ Hin Hfind Hnot)
    as (bad & _ & _ & Hbad & Hcheck).
  exists bad. split; [done |].
  unfold render. rewrite Hsup, Hsel. cbn [negb].
  unfold render_with, render_cheetah, check_for_invalid_imports. run_monad.
  cbn [String.eqb Ascii.eqb Bool.eqb]. by rewrite Hcheck.
Qed.

(** The Jinja2 failure through [render]: with settings configured and no
    output path the caller gets the placeholder. *)
Lemma render_with_jinja2_failure
    (rt : Runtime) (self : Templar) (s : Settings) (raw_data : string)
    (search_table : loc) (σ : state) (exc : exn) :
  settings self = Some s ->
  jinja2_available rt = true ->
  (jinja2_run rt (includedir self) raw_data (heap σ) search_table).1 = inl exc ->
  (render_with rt self "jinja2" raw_data search_table None σ).1 = Ok jinja2_placeholder.
Proof.
  intros Hs Hav Hfail. unfold render_with.
  cbn [String.eqb Ascii.eqb Bool.eqb]. rewrite Hav.
  unfold render_jinja2, post_filter, set_http_server, write_out, substitute_tokens.
  run_monad. cbn [heap last_errors events]. rewrite Hfail, Hs.
  cbn [heap last_errors events].
  change (Regex.finditer jinja2_placeholder) with (@nil string).
  by rewrite set_order_nil.
Qed.

Lemma found_single (c : ascii) (s : string) :
  found (String c "") s = PyStr.mem_char c s.
Proof.
  induction s as [|d s IH]; [done |].
  cbn [found PyStr.mem_char String.prefix]. rewrite IH.
  destruct (ascii_dec c d) as [-> | Hne].
  - by rewrite PyStrFacts.prefix_nil, Ascii.eqb_refl.
  - by apply Ascii.eqb_neq in Hne as ->.
Qed.

Lemma split_first_line (line rest : string) :
  PyStr.mem_char "010"%char line = false ->
  PyStr.split (line +:+ NL +:+ rest) NL = line :: PyStr.split rest NL.
Proof.
  intros Hnl. unfold NL. rewrite AliasFacts.split_app_no_sep by done.
  rewrite PyStrFacts.split_hit by done. cbn [hd tl].
  by rewrite PyStrFacts.app_nil_r.
Qed.

(** The directive in its usual shape: a first line [#template=name], with
    no second [=], and the rest of the template below it. *)
Lemma directive_line_names_engine
    (rt : Runtime) (self : Templar) (name rest : string) (search_table : loc)
    (out_path : option string) (template_type : string) (σ : state) :
  supported template_type = true ->
  PyStr.mem_char "="%char name = false ->
  PyStr.mem_char "010"%char name = false ->
  render rt self ("#template=" +:+ name +:+ NL +:+ rest) search_table out_path
    template_type σ
  = render_with rt self (PyStr.lower (PyStr.strip name)) rest search_table out_path σ.
Proof.
  intros Hsup Heq Hnl. unfold render, select_engine. rewrite Hsup. cbn [negb].
  rewrite DirectiveFacts.split_directive_line, split_first_line by done.
  cbn [hd tl]. rewrite directive_found.
  unfold PyStr.split at 1, PyStr.split_max.
  rewrite NfsFacts.split_go_absent by (by rewrite found_single).
  cbn [hd fst lift]. rewrite PyStrFacts.join_split by done.
  reflexivity.
Qed.

(** What the caller finds in [template_universe] after a render that went
    through, when the template only read its variables: the caller's items,
    and neither of the two keys the pipeline adds unless the caller had
    them. *)
Lemma universe_lacks_pipeline_keys
    (rt : Runtime) (self : Templar) (data_input : string) (search_table : loc)
    (out_path : option string) (template_type source text : string) (σ σ' : state)
    (table : gmap string value) :
  read_only rt ->
  heap σ !! search_table = Some table ->
  table !! "template_universe" = None ->
  table !! "http_server" = None ->
  supported template_type = true ->
  select_engine self data_input template_type = inr ("cheetah", source) ->
  render rt self data_input search_table out_path template_type σ = (Ok text, σ') ->
  exists copy snapshot,
    deref (heap σ') search_table !! "template_universe" = Some (VDict copy) /\
    is_Some (deref (heap σ') search_table !! "http_server") /\
    heap σ' !! copy = Some snapshot /\
    snapshot !! "template_universe" = None /\
    snapshot !! "http_server" = None.
Proof.
  intros [Hro _] Hl Htu Hhs Hsup Hsel. unfold render. rewrite Hsup, Hsel. cbn [negb].
  unfold render_with. run_monad. cbn [lift String.eqb Ascii.eqb Bool.eqb].
  destruct (with_universe_copy _ _ _ Hl) as (_ & Hne & Hcopy & Huniv).
  destruct (render_cheetah rt self source search_table σ) as [[data_out|e] σ1] eqn:Hrc;
    [| by intros [=]].
  apply render_cheetah_store in Hrc
    as [(_ & e & [=]) | [(_ & e & [=]) | (src & macros & rebound & Hh)]].
  rewrite Hro in Hh.
  intros Hpf.
  apply post_filter_store in Hpf as [(_ & _ & e & [=]) | (s & _ & ->)].
  exists (fresh (dom (heap σ))), table.
  rewrite deref_insert_eq, lookup_insert_eq, !lookup_insert_ne by done.
  rewrite Hh. by eauto.
Qed.

(** * Further properties of the code *)

(** ** [check_for_invalid_imports]: when it lets a template through *)

Lemma check_lines_none_iff (self : Templar) (s : Settings) (lines : list string) :
  settings self = Some s ->
  check_lines self lines = None <->
  forall line, line ∈ lines -> PyStr.find line "#import" <> -1 ->
               import_target line ∈ cheetah_import_whitelist s.
Proof.
  intros Hs. split.
  - intros Hnone line Hin Hfind.
    destruct (decide (import_target line ∈ cheetah_import_whitelist s)) as [|Hnot];
      [done |].
    destruct (check_lines_rejects self s Hs lines line Hin Hfind Hnot)
      as (bad & _ & _ & _ & Hsome).
    congruence.
  - intros Hall. induction lines as [|l lines IH]; [done |].
    cbn [check_lines].
    destruct (check_line self l) as [e|] eqn:Hl.
    + apply (check_line_raises self s Hs) in Hl as (Hfind & Hnot & _).
      exfalso. apply Hnot, Hall; [left | done].
    + apply IH. intros line Hin. apply Hall. by right.
Qed.

Lemma lift_unit_ok (r : option exn) (σ : state) :
  lift_unit r σ = (Ok tt, σ) <-> r = None.
Proof.
  unfold lift_unit, raise, mret, M_ret.
  destruct r; split; intros H; try discriminate H; reflexivity.
Qed.

(** X1.  With settings configured, [check_for_invalid_imports] returns
    without raising exactly when every line that contains "#import" has its
    target (the line without "#import" and without spaces, stripped) in
    [cheetah_import_whitelist]. *)
Theorem import_check_passes_iff
    (self : Templar) (s : Settings) (data : string) (σ : state) :
  settings self = Some s ->
  check_for_invalid_imports self data σ = (Ok tt, σ) <->
  forall line, line ∈ PyStr.split data NL -> PyStr.find line "#import" <> -1 ->
               import_target line ∈ cheetah_import_whitelist s.
Proof.
  intros Hs. unfold check_for_invalid_imports.
  rewrite lift_unit_ok. by apply check_lines_none_iff.
Qed.

Lemma import_check_passes_iff_witness :
  check_for_invalid_imports demo_templar ("#import re" +:+ NL +:+ "x") (one_dict ∅)
  = (Ok tt, one_dict ∅) <->
  forall line, line ∈ PyStr.split ("#import re" +:+ NL +:+ "x") NL ->
               PyStr.find line "#import" <> -1 ->
               import_target line ∈ cheetah_import_whitelist demo_settings.
Proof.
  apply (import_check_passes_iff demo_templar demo_settings
           ("#import re" +:+ NL +:+ "x") (one_dict ∅)).
  reflexivity.
Defined.

Lemma check_lines_no_settings (self : Templar) (lines : list string) :
  settings self = None -> check_lines self lines = None.
Proof.
  intros Hs. induction lines as [|l lines IH]; [done |].
  cbn [check_lines]. unfold check_line. rewrite Hs.
  by destruct (negb _).
Qed.

(** X2.  A Templar without settings enforces no whitelist: the check lets
    every template through, whatever it imports. *)
Theorem import_check_without_settings
    (self : Templar) (data : string) (σ : state) :
  settings self = None ->
  check_for_invalid_imports self data σ = (Ok tt, σ).
Proof.
  intros Hs. unfold check_for_invalid_imports.
  by rewrite check_lines_no_settings.
Qed.

Lemma import_check_without_settings_witness :
  check_for_invalid_imports {| settings := None |} "#import os" (one_dict ∅)
  = (Ok tt, one_dict ∅).
Proof.
  apply (import_check_without_settings {| settings := None |} "#import os" (one_dict ∅)).
  reflexivity.
Defined.

(** What occurs in a line occurs in the text the line was cut from. *)
Lemma found_cons (m : string) (c : ascii) (s : string) :
  found m s = true -> found m (String c s) = true.
Proof. intros H. cbn [found]. rewrite H. apply orb_true_r. Qed.

Lemma found_in_line (m s line : string) (c : ascii) :
  line ∈ PyStr.split s (String c "") -> found m line = true -> found m s = true.
Proof.
  revert line. induction s as [|d s IH]; intros line Hin Hf.
  - apply list_elem_of_singleton in Hin as ->. exact Hf.
  - destruct (ascii_dec c d) as [<- | Hne].
    + change (String c s) with (String c "" +:+ s) in Hin.
      rewrite PyStrFacts.split_hit in Hin by done.
      apply elem_of_cons in Hin as [-> | Hin].
      * cbn [found] in Hf. rewrite orb_false_r in Hf.
        destruct m; [| done]. cbn [found]. by rewrite PyStrFacts.prefix_nil.
      * apply found_cons. by eapply IH.
    + rewrite PyStrFacts.split_miss in Hin
        by (by apply AliasFacts.prefix_head_mismatch).
      apply elem_of_cons in Hin as [-> | Hin].
      * cbn [found] in Hf. apply orb_true_iff in Hf as [Hp | Hf].
        -- destruct (AliasFacts.split_head_prefix s (String c "")) as [t Ht]; [done |].
           cbn [found]. rewrite Ht.
           change (String d (?a +:+ t)) with (String d a +:+ t).
           by rewrite (PyStrFacts.prefix_app_l _ _ _ Hp).
        -- apply found_cons. eapply IH; [| exact Hf].
           rewrite (PyStrFacts.split_cons s). left.
      * apply found_cons. eapply IH; [| exact Hf].
        rewrite (PyStrFacts.split_cons s). by right.
Qed.

(** X3.  A template in which the text "#import" does not occur passes the
    check under every policy, an empty whitelist included. *)
Theorem import_check_without_marker
    (self : Templar) (data : string) (σ : state) :
  PyStr.find data "#import" = -1 ->
  check_for_invalid_imports self data σ = (Ok tt, σ).
Proof.
  intros Hfind. unfold check_for_invalid_imports. apply lift_unit_ok.
  assert (forall lines, (forall line, line ∈ lines -> PyStr.find line "#import" = -1) ->
                        check_lines self lines = None) as Hgen.
  { intros lines Hall. induction lines as [|l lines IH]; [done |].
    cbn [check_lines]. unfold check_line. rewrite (Hall l) by left.
    cbn [Z.eqb negb Pos.eqb]. apply IH. intros line Hin. apply Hall. by right. }
  apply Hgen. intros line Hin.
  destruct (Z.eq_dec (PyStr.find line "#import") (-1)) as [| Hne]; [done |].
  exfalso.
  assert (found "#import" line = true) as Hf.
  { rewrite <- AliasFacts.find_found. by apply negb_true_iff, Z.eqb_neq. }
  pose proof (found_in_line _ _ _ _ Hin Hf) as Hd.
  rewrite <- AliasFacts.find_found, Hfind in Hd. discriminate Hd.
Qed.

Lemma import_check_without_marker_witness :
  check_for_invalid_imports {| settings := Some {| cheetah_import_whitelist := [];
                                                    default_template_type := "";
                                                    jinja2_includedir := "";
                                                    server := "" |} |}
    ("# import os" +:+ NL +:+ "from os import path") (one_dict ∅)
  = (Ok tt, one_dict ∅).
Proof.
  apply (import_check_without_marker _ ("# import os" +:+ NL +:+ "from os import path")
           (one_dict ∅)).
  by vm_compute.
Defined.

(** ** [render]: engine selection *)

Lemma find_from_lower (sub s : string) (i : Z) :
  PyStr.find_from sub s i = -1 \/ i <= PyStr.find_from sub s i.
Proof.
  revert i. induction s as [|c s IH]; intros i; cbn [PyStr.find_from].
  - destruct (String.prefix sub ""); [right; lia | by left].
  - destruct (String.prefix sub (String c s)); [right; lia |].
    destruct (IH (i + 1)) as [-> | H]; [by left | right; lia].
Qed.

Lemma find_zero_prefix (s sub : string) :
  PyStr.find s sub = 0 -> String.prefix sub s = true.
Proof.
  unfold PyStr.find. destruct s as [|c s]; cbn [PyStr.find_from].
  - by destruct (String.prefix sub "").
  - destruct (String.prefix sub (String c s)); [done |].
    destruct (find_from_lower sub s (0 + 1)) as [-> | H]; [done | lia].
Qed.

Lemma no_directive (data_input template_type : string) :
  PyStr.startswith data_input "#template=" = false ->
  directive (PyStr.split data_input NL) template_type data_input
  = inr (template_type, data_input).
Proof.
  intros Hstart. rewrite (PyStrFacts.split_cons data_input NL). cbn [directive].
  destruct (Z.eqb_spec (PyStr.find (hd "" (PyStr.split data_input NL)) "#template=") 0)
    as [Hz | _]; [| done].
  exfalso. apply find_zero_prefix in Hz.
  destruct (AliasFacts.split_head_prefix data_input NL) as [t Ht]; [done |].
  unfold PyStr.startswith in Hstart. rewrite Ht in Hstart.
  by rewrite (PyStrFacts.prefix_app_l _ _ _ Hz) in Hstart.
Qed.

(** X4.  Only a directive at the very start of the template counts.  When
    the template does not start with "#template=" (it may have the text
    further down, or after a blank), the whole template goes to the engine
    the selector names, "default" standing for the settings' default type or
    Cheetah. *)
Theorem render_without_directive
    (rt : Runtime) (self : Templar) (data_input : string) (search_table : loc)
    (out_path : option string) (template_type : string) (σ : state) :
  supported template_type = true ->
  PyStr.startswith data_input "#template=" = false ->
  render rt self data_input search_table out_path template_type σ
  = render_with rt self (resolve_default self template_type) data_input
      search_table out_path σ.
Proof.
  intros Hsup Hstart. unfold render, select_engine. rewrite Hsup. cbn [negb].
  by rewrite no_directive.
Qed.

Lemma render_without_directive_witness :
  render echo_runtime demo_templar (" #template=jinja2" +:+ NL +:+ "x") 1%positive None
    "default" (one_dict ∅)
  = render_with echo_runtime demo_templar (resolve_default demo_templar "default")
      (" #template=jinja2" +:+ NL +:+ "x") 1%positive None (one_dict ∅).
Proof.
  apply (render_without_directive echo_runtime demo_templar
           (" #template=jinja2" +:+ NL +:+ "x") 1%positive None "default" (one_dict ∅));
    reflexivity.
Defined.

(** X5.  When the selector is one of "default", "jinja2" and "cheetah" and
    the template's first line is "#template=" followed by a name (with no
    "=" in it) and a newline, a name that, stripped and lower-cased, is
    neither "cheetah" nor "jinja2" ends the call with the fixed text that
    quotes it: no engine runs and the state, the context included, is left
    alone.  The directive cannot say "default". *)
Theorem render_unknown_directive
    (rt : Runtime) (self : Templar) (name rest : string) (search_table : loc)
    (out_path : option string) (template_type : string) (σ : state) :
  supported template_type = true ->
  PyStr.mem_char "="%char name = false ->
  PyStr.mem_char "010"%char name = false ->
  PyStr.lower (PyStr.strip name) <> "cheetah" ->
  PyStr.lower (PyStr.strip name) <> "jinja2" ->
  render rt self ("#template=" +:+ name +:+ NL +:+ rest) search_table out_path
    template_type σ
  = (Ok ("# ERROR: UNSUPPORTED TEMPLATE TYPE (" +:+ PyStr.lower (PyStr.strip name) +:+ ")"),
     σ).
Proof.
  intros Hsup Heq Hnl Hc Hj.
  rewrite directive_line_names_engine by done.
  unfold render_with.
  apply String.eqb_neq in Hc as ->. apply String.eqb_neq in Hj as ->.
  reflexivity.
Qed.

Lemma render_unknown_directive_witness :
  render echo_runtime demo_templar ("#template=" +:+ " Default" +:+ NL +:+ "x") 1%positive
    None "jinja2" (one_dict ∅)
  = (Ok ("# ERROR: UNSUPPORTED TEMPLATE TYPE (" +:+ PyStr.lower (PyStr.strip " Default")
         +:+ ")"),
     one_dict ∅).
Proof.
  apply (render_unknown_directive echo_runtime demo_templar " Default" "x" 1%positive
           None "jinja2" (one_dict ∅)); by vm_compute.
Defined.

(** ** [render]: what comes back *)

Lemma lstrip_head (s : string) : starts_with_space (PyStr.lstrip s) = false.
Proof.
  unfold PyStr.lstrip. induction s as [|c s IH]; [done |].
  cbn [PyStr.lstrip_by]. destruct (PyStr.isspace c) eqn:Hc; [exact IH |].
  cbn. exact Hc.
Qed.

Lemma newline_is_space (s : string) :
  PyStr.startswith s NL = true -> starts_with_space s = true.
Proof.
  unfold PyStr.startswith. intros H.
  destruct (PyStrFacts.prefix_inv _ _ H) as [r ->]. reflexivity.
Qed.

Lemma trim_leading_no_newline (s : string) :
  PyStr.startswith (trim_leading s) NL = false.
Proof.
  unfold trim_leading. destruct (PyStr.startswith s NL) eqn:Hs; [| exact Hs].
  destruct (PyStr.startswith (PyStr.lstrip s) NL) eqn:Hl; [| done].
  apply newline_is_space in Hl. by rewrite lstrip_head in Hl.
Qed.

Lemma post_filter_text (rt : Runtime) (self : Templar) (data_out : string)
      (search_table : loc) (out_path : option string) (σ σ' : state) (text : string) :
  post_filter rt self data_out search_table out_path σ = (Ok text, σ') ->
  exists replaced, text = trim_leading replaced.
Proof.
  unfold post_filter, set_http_server, write_out. run_monad. intros H.
  repeat (case_match; simplify_eq/=); eauto.
Qed.

(** X6.  Whatever the engine, the selector and the template, a text that
    [render] returns does not start with a newline. *)
Theorem render_text_has_no_leading_newline
    (rt : Runtime) (self : Templar) (data_input : string) (search_table : loc)
    (out_path : option string) (template_type : string) (σ σ' : state) (text : string) :
  render rt self data_input search_table out_path template_type σ = (Ok text, σ') ->
  PyStr.startswith text NL = false.
Proof.
  unfold render. destruct (supported template_type); cbn [negb];
    [| by intros [= <- _]].
  unfold mbind, M_bind.
  destruct (select_engine self data_input template_type) as [e | [engine source]];
    [by intros [=] |].
  cbn [lift]. unfold mret, M_ret, render_with, mbind, M_bind.
  destruct (String.eqb engine "cheetah").
  { destruct (render_cheetah _ _ _ _ _) as [[data_out|e] σ1]; [| by intros [=]].
    intros (x & ->)%post_filter_text. apply trim_leading_no_newline. }
  destruct (String.eqb engine "jinja2"); [| by intros [= <- _]].
  destruct (jinja2_available rt); [| by intros [= <- _]].
  destruct (render_jinja2 _ _ _ _ _) as [[data_out|e] σ1]; [| by intros [=]].
  intros (x & ->)%post_filter_text. apply trim_leading_no_newline.
Qed.

Lemma render_text_has_no_leading_newline_witness :
  PyStr.startswith
    (NL +:+ " " +:+ NL +:+ "text") NL = true /\
  PyStr.startswith "text" NL = false.
Proof.
  split; [reflexivity |].
  apply (render_text_has_no_leading_newline echo_runtime demo_templar
           (NL +:+ " " +:+ NL +:+ "text") 1%positive None "jinja2" (one_dict ∅)
           (render echo_runtime demo_templar (NL +:+ " " +:+ NL +:+ "text") 1%positive None
              "jinja2" (one_dict ∅)).2 "text").
  by vm_compute.
Defined.

(** X7.  What is written is what is returned: when an output path is given
    and the filters return, the last two things they did were to make the
    parent directory and to write the returned text to the path; with no
    path they do neither. *)
Theorem post_filter_writes_returned_text
    (rt : Runtime) (self : Templar) (data_out : string) (search_table : loc)
    (out_path : option string) (σ σ' : state) (text : string) :
  post_filter rt self data_out search_table out_path σ = (Ok text, σ') ->
  events σ' = (events σ ++ match out_path with
                           | Some path => [MkdirParent path; WriteFile path text]
                           | None => []
                           end)%list.
Proof.
  unfold post_filter, set_http_server, write_out. run_monad. intros H.
  destruct σ as [h le ev]. cbn [heap last_errors events] in *.
  repeat (case_match; simplify_eq/=);
    rewrite <- ?(assoc_L (++)), ?(right_id_L [] (++)); eauto.
Qed.

Lemma post_filter_writes_returned_text_witness :
  events (post_filter echo_runtime demo_templar (NL +:+ "hello") 1%positive
            (Some "/srv/out/ks.cfg") (one_dict ∅)).2
  = (events (one_dict ∅) ++ [MkdirParent "/srv/out/ks.cfg";
                              WriteFile "/srv/out/ks.cfg" "hello"])%list.
Proof.
  apply (post_filter_writes_returned_text echo_runtime demo_templar (NL +:+ "hello")
           1%positive (Some "/srv/out/ks.cfg") (one_dict ∅) _ "hello").
  by vm_compute.
Defined.

Lemma finditer_without_marker (s : string) (k : nat) :
  found "@@" s = false -> Regex.finditer_go s k = [].
Proof.
  revert k. induction s as [|c s IH]; intros k Hf; [done |].
  cbn [found] in Hf. apply orb_false_iff in Hf as [Hp Hf].
  cbn [Regex.finditer_go]. destruct k as [|k]; [| by apply IH].
  unfold Regex.match_here. rewrite Hp. by apply IH.
Qed.

(** X8.  A rendered text in which "@@" does not occur goes through the
    filters without any lookup, whatever the context holds: with settings
    configured and no output path the call returns the text with its leading
    whitespace trimmed as above, and the only change is the context's
    [http_server]. *)
Theorem post_filter_without_tokens
    (rt : Runtime) (self : Templar) (s : Settings) (data_out : string)
    (search_table : loc) (σ : state) :
  settings self = Some s ->
  PyStr.find data_out "@@" = -1 ->
  post_filter rt self data_out search_table None σ
  = (Ok (trim_leading data_out),
     State (<[search_table :=
                <["http_server" := http_server_of rt s (heap σ) (deref (heap σ) search_table)]>
                  (deref (heap σ) search_table)]> (heap σ))
           (last_errors σ) (events σ)).
Proof.
  intros Hs Hfind.
  assert (Regex.finditer data_out = []) as Hnone.
  { apply finditer_without_marker.
    rewrite <- AliasFacts.find_found, Hfind. reflexivity. }
  unfold post_filter, set_http_server, write_out, substitute_tokens. run_monad.
  rewrite Hs. cbn [heap last_errors events].
  by rewrite Hnone, set_order_nil.
Qed.

Lemma post_filter_without_tokens_witness :
  post_filter echo_runtime demo_templar "user@example.org" 1%positive None (one_dict ∅)
  = (Ok (trim_leading "user@example.org"),
     State (<[1%positive :=
                <["http_server" := http_server_of echo_runtime demo_settings
                                     (heap (one_dict ∅)) (deref (heap (one_dict ∅)) 1%positive)]>
                  (deref (heap (one_dict ∅)) 1%positive)]> (heap (one_dict ∅)))
           (last_errors (one_dict ∅)) (events (one_dict ∅))).
Proof.
  apply (post_filter_without_tokens echo_runtime demo_templar demo_settings
           "user@example.org" 1%positive (one_dict ∅)); reflexivity.
Defined.

(** ** The tokens the regular expression finds *)

Lemma lazy_close_shape (s : string) (n : nat) :
  Regex.lazy_close s = Some n ->
  exists body rest,
    s = body +:+ "@@" +:+ rest /\ String.length body = n /\
    no_space body = true /\ found "@@" (body +:+ "@") = false.
Proof.
  revert n. induction s as [|c s IH]; intros n; cbn [Regex.lazy_close].
  - cbn. done.
  - destruct (String.prefix "@@" (String c s)) eqn:Hp.
    + intros [= <-]. destruct (PyStrFacts.prefix_inv _ _ Hp) as [r ->].
      by exists "", r.
    + destruct (PyStr.isspace c) eqn:Hc; [done |].
      destruct (Regex.lazy_close s) as [n'|]; [| done].
      intros [= <-]. destruct (IH n' eq_refl) as (body & rest & -> & Hlen & Hns & Hnf).
      exists (String c body), rest. split; [done |]. split; [by cbn; rewrite Hlen |].
      split; [by cbn; rewrite Hc, Hns |].
      change (String c body +:+ "@") with (String c (body +:+ "@")).
      cbn [found]. rewrite Hnf, orb_false_r.
      destruct body as [|d body].
      * cbn in Hp |- *. destruct (ascii_dec "@" c); [| done].
        by destruct rest.
      * change (String d body +:+ ?x) with (String d (body +:+ x)) in *.
        cbn [String.prefix] in Hp |- *.
        destruct (ascii_dec "@" c); [| done]. destruct (ascii_dec "@" d); [| done].
        by rewrite PyStrFacts.prefix_nil in Hp.
Qed.

Lemma take_app_length (a b : string) :
  PyStr.take (String.length a) (a +:+ b) = a.
Proof. induction a as [|c a IH]; [by destruct b | cbn; by rewrite IH]. Qed.

Lemma match_here_shape (s m : string) :
  Regex.match_here s = Some m ->
  String.prefix m s = true /\
  exists body,
    m = "@@" +:+ body +:+ "@@" /\ no_space body = true /\
    found "@@" (body +:+ "@") = false.
Proof.
  unfold Regex.match_here. destruct (String.prefix "@@" s) eqn:Hp; [| done].
  destruct (PyStrFacts.prefix_inv _ _ Hp) as [r ->].
  change (PyStr.drop 2 ("@@" +:+ r)) with r.
  destruct (Regex.lazy_close r) as [n|] eqn:Hn; [| done].
  intros [= <-].
  destruct (lazy_close_shape _ _ Hn) as (body & rest & -> & Hlen & Hns & Hnf).
  change (String "@" (String "@" (body +:+ "@@" +:+ rest)))
    with ("@@" +:+ body +:+ "@@" +:+ rest).
  assert (PyStr.take (n + 4) ("@@" +:+ body +:+ "@@" +:+ rest) = "@@" +:+ body +:+ "@@")
    as ->.
  { replace (n + 4)%nat with (String.length ("@@" +:+ body +:+ "@@"))
      by (rewrite !PyStrFacts.length_app; cbn; lia).
    rewrite <- (take_app_length ("@@" +:+ body +:+ "@@") rest) at 2.
    by rewrite !PyStrFacts.app_assoc. }
  split; [| by exists body].
  replace ("@@" +:+ body +:+ "@@" +:+ rest) with (("@@" +:+ body +:+ "@@") +:+ rest)
    by (by rewrite !PyStrFacts.app_assoc).
  apply PyStrFacts.prefix_app.
Qed.

Lemma finditer_go_shape (s : string) (k : nat) (m : string) :
  m ∈ Regex.finditer_go s k ->
  found m s = true /\
  exists body,
    m = "@@" +:+ body +:+ "@@" /\ no_space body = true /\
    found "@@" (body +:+ "@") = false.
Proof.
  revert k. induction s as [|c s IH]; intros k; cbn [Regex.finditer_go].
  - by intros ?%elem_of_nil.
  - assert (forall k', m ∈ Regex.finditer_go s k' ->
              found m (String c s) = true /\
              exists body,
                m = "@@" +:+ body +:+ "@@" /\ no_space body = true /\
                found "@@" (body +:+ "@") = false) as Hrec.
    { intros k' Hin. destruct (IH _ Hin) as [Hf Hb]. split; [by apply found_cons | done]. }
    destruct k as [|k]; [| apply Hrec].
    destruct (Regex.match_here (String c s)) as [m'|] eqn:Hm; [| apply Hrec].
    intros [-> | Hin]%elem_of_cons; [| by eapply Hrec].
    destruct (match_here_shape _ _ Hm) as [Hp Hb].
    split; [| done]. cbn [found]. by rewrite Hp.
Qed.

(** X9.  Every token the filter looks up occurs in the rendered text and is
    "@@", a body and "@@", where the body has no whitespace (a token never
    spans two words or two lines) and no "@@" ends inside the body or right
    after it (the first closing "@@" ends the token). *)
Theorem token_shape (data_out tok : string) :
  tok ∈ Regex.finditer data_out ->
  found tok data_out = true /\
  exists body,
    tok = "@@" +:+ body +:+ "@@" /\ no_space body = true /\
    found "@@" (body +:+ "@") = false.
Proof. apply finditer_go_shape. Qed.

Lemma token_shape_witness :
  found "@@name@@" "x @@name@@ y" = true /\
  exists body,
    "@@name@@" = "@@" +:+ body +:+ "@@" /\ no_space body = true /\
    found "@@" (body +:+ "@") = false.
Proof.
  apply (token_shape "x @@name@@ y" "@@name@@"). by_eval.
Defined.

(** ** The nfs rewrite for any path *)

Lemma split_go_budget_app (c : ascii) (a x : string) (b : option nat) :
  PyStr.mem_char c a = false ->
  PyStr.split_go (String c "") (a +:+ x) 0 b
  = (a +:+ (PyStr.split_go (String c "") x 0 b).1,
     (PyStr.split_go (String c "") x 0 b).2).
Proof.
  induction a as [|d a IH]; intros Hc;
    [cbn [String.append]; by destruct (PyStr.split_go (String c "") x 0 b) |].
  cbn [PyStr.mem_char] in Hc. apply orb_false_iff in Hc as [Hcd%Ascii.eqb_neq Ha].
  change (String d a +:+ x) with (String d (a +:+ x)).
  rewrite PyStrFacts.split_go_miss by (by apply AliasFacts.prefix_head_mismatch).
  by rewrite IH.
Qed.

Lemma split_go_budget_hit (c : ascii) (x : string) (b : option nat) :
  PyStr.budget_left b = true ->
  PyStr.split_go (String c "") (String c x) 0 b
  = ("", (PyStr.split_go (String c "") x 0 (PyStr.budget_dec b)).1
         :: (PyStr.split_go (String c "") x 0 (PyStr.budget_dec b)).2).
Proof.
  intros Hb. cbn [PyStr.split_go String.prefix]. rewrite Hb.
  destruct (ascii_dec c c); [| done]. by rewrite PyStrFacts.prefix_nil.
Qed.

Lemma split_go_no_budget (sep s : string) :
  PyStr.split_go sep s 0 (Some O) = (s, []).
Proof. induction s as [|c s IH]; [done |]. cbn [PyStr.split_go PyStr.budget_left andb]. by rewrite IH. Qed.

Lemma mem_char_found (c : ascii) (s : string) :
  PyStr.mem_char c s = false -> found (String c "") s = false.
Proof. intros H. by rewrite found_single. Qed.

(** A path with exactly one colon is cut into host and directory. *)
Lemma split_host_directory (host directory : string) :
  PyStr.mem_char ":"%char host = false ->
  PyStr.mem_char ":"%char directory = false ->
  PyStr.split_max (host +:+ ":" +:+ directory) ":" (Some 2%nat) = [host; directory].
Proof.
  intros Hh Hd. unfold PyStr.split_max.
  rewrite split_go_budget_app by done.
  change (":" +:+ directory) with (String ":" directory).
  rewrite split_go_budget_hit by done. cbn [fst snd PyStr.budget_dec fmap option_fmap option_map Nat.pred].
  rewrite NfsFacts.split_go_absent by (by apply mem_char_found).
  cbn [fst snd]. by rewrite PyStrFacts.app_nil_r.
Qed.

(** A path with a second colon is cut into three, however many follow. *)
Lemma split_two_colons (host middle rest : string) :
  PyStr.mem_char ":"%char host = false ->
  PyStr.mem_char ":"%char middle = false ->
  PyStr.split_max (host +:+ ":" +:+ middle +:+ ":" +:+ rest) ":" (Some 2%nat)
  = [host; middle; rest].
Proof.
  intros Hh Hm. unfold PyStr.split_max.
  rewrite split_go_budget_app by done.
  change (":" +:+ middle +:+ ":" +:+ rest) with (String ":" (middle +:+ ":" +:+ rest)).
  rewrite split_go_budget_hit by done. cbn [fst snd PyStr.budget_dec fmap option_fmap option_map Nat.pred].
  rewrite split_go_budget_app by done.
  change (":" +:+ rest) with (String ":" rest).
  rewrite split_go_budget_hit by done. cbn [fst snd PyStr.budget_dec fmap option_fmap option_map Nat.pred].
  rewrite split_go_no_budget. cbn [fst snd].
  by rewrite !PyStrFacts.app_nil_r.
Qed.

Lemma count_char_zero (c : ascii) (s : string) :
  count_char c s = O <-> PyStr.mem_char c s = false.
Proof.
  induction s as [|d s IH]; [done |]. cbn [count_char PyStr.mem_char].
  destruct (Ascii.eqb c d); cbn [orb]; [split; [lia | done] | exact IH].
Qed.

(** The text up to the first [c], and the text after it. *)
Lemma first_occurrence (c : ascii) (s : string) :
  count_char c s <> O ->
  exists a b,
    s = a +:+ String c b /\ PyStr.mem_char c a = false /\
    count_char c s = S (count_char c b).
Proof.
  induction s as [|d s IH]; [done |]. cbn [count_char].
  destruct (Ascii.eqb_spec c d) as [<- | Hne].
  - intros _. by exists "", s.
  - intros Hc. destruct (IH Hc) as (a & b & -> & Ha & Hn).
    exists (String d a), b. split; [done |]. split; [| exact Hn].
    cbn [PyStr.mem_char]. apply Ascii.eqb_neq in Hne as ->. exact Ha.
Qed.

Lemma nfs_line_bad_path (rest line : string) :
  has_url_markers line = true ->
  count_char ":"%char rest <> 1%nat ->
  nfs_line ("nfs://" +:+ rest) line
  = inl (CX ("Invalid syntax for NFS path given during import: nfs://" +:+ rest)).
Proof.
  intros Hm Hc. unfold nfs_line. rewrite Hm.
  change (PyStr.drop 6 ("nfs://" +:+ rest)) with rest.
  destruct (decide (count_char ":"%char rest = O)) as [Hz | Hnz].
  - apply count_char_zero in Hz. unfold PyStr.split_max.
    by rewrite NfsFacts.split_go_absent by (by apply mem_char_found).
  - destruct (first_occurrence _ _ Hnz) as (a & b & -> & Ha & Hn).
    assert (count_char ":"%char b <> O) as Hb by lia.
    destruct (first_occurrence _ _ Hb) as (m & r & -> & Hmid & _).
    change (a +:+ String ":" (m +:+ String ":" r))
      with (a +:+ ":" +:+ m +:+ ":" +:+ r).
    by rewrite split_two_colons.
Qed.

Lemma nfs_source_rewritten (raw_data tree : string) (table : gmap string value)
      (f : string -> string) :
  table !! "tree" = Some (VStr tree) ->
  PyStr.startswith tree "nfs://" = true ->
  (forall line, line ∈ PyStr.split raw_data NL ->
     nfs_line tree (alias line) = inr (f line)) ->
  cheetah_source raw_data table
  = inr ("#errorCatcher ListErrors" +:+ NL +:+
         concat_lines (map f (PyStr.split raw_data NL))).
Proof.
  intros Htree Hstart Hf. unfold cheetah_source. rewrite Htree, Hstart.
  rewrite NfsFacts.alias_lines.
  assert (forall lines newdata,
            (forall line, line ∈ lines -> nfs_line tree (alias line) = inr (f line)) ->
            nfs_loop tree (map alias lines) newdata
            = inr (newdata +:+ concat_lines (map f lines))) as Hloop.
  { intros lines. induction lines as [|l lines IH]; intros newdata Hall.
    - cbn. by rewrite PyStrFacts.app_nil_r.
    - cbn [map nfs_loop concat_lines]. rewrite (Hall l) by left.
      rewrite IH by (intros line Hin; apply Hall; by right).
      by rewrite !PyStrFacts.app_assoc. }
  by rewrite Hloop.
Qed.

(** X10.  For a [tree] of the form nfs://host:directory (one colon after
    the scheme) the source prepared for the compiler is the error catcher
    directive and then the template's lines, newline after each: a line
    with both "--url" and "url " becomes "nfs --server host --dir directory"
    and, below it, "#url --url=" followed by the tree; the other lines only
    have their [TEMPLATE::] replaced. *)
Theorem nfs_rewrite_for_host_and_directory
    (raw_data host directory : string) (table : gmap string value) :
  PyStr.mem_char ":"%char host = false ->
  PyStr.mem_char ":"%char directory = false ->
  table !! "tree" = Some (VStr ("nfs://" +:+ host +:+ ":" +:+ directory)) ->
  cheetah_source raw_data table
  = inr ("#errorCatcher ListErrors" +:+ NL +:+
         concat_lines
           (map (fun line =>
                   if has_url_markers line
                   then "nfs --server " +:+ host +:+ " --dir " +:+ directory +:+ NL +:+
                        "#url --url=" +:+ "nfs://" +:+ host +:+ ":" +:+ directory
                   else alias line)
                (PyStr.split raw_data NL))).
Proof.
  intros Hh Hd Htree.
  apply (nfs_source_rewritten _ _ _ _ Htree); [apply PyStrFacts.prefix_app |].
  intros line _. unfold nfs_line. rewrite NfsFacts.alias_markers.
  destruct (has_url_markers line); [| done].
  change (PyStr.drop 6 ("nfs://" +:+ host +:+ ":" +:+ directory))
    with (host +:+ ":" +:+ directory).
  by rewrite split_host_directory.
Qed.

Lemma nfs_rewrite_for_host_and_directory_witness :
  cheetah_source ("url --url=$tree" +:+ NL +:+ "text")
    {[ "tree" := VStr ("nfs://" +:+ "10.0.0.1" +:+ ":" +:+ "/srv/f34") ]}
  = inr ("#errorCatcher ListErrors" +:+ NL +:+
         concat_lines
           (map (fun line =>
                   if has_url_markers line
                   then "nfs --server " +:+ "10.0.0.1" +:+ " --dir " +:+ "/srv/f34" +:+ NL +:+
                        "#url --url=" +:+ "nfs://" +:+ "10.0.0.1" +:+ ":" +:+ "/srv/f34"
                   else alias line)
                (PyStr.split ("url --url=$tree" +:+ NL +:+ "text") NL))).
Proof.
  apply (nfs_rewrite_for_host_and_directory ("url --url=$tree" +:+ NL +:+ "text")
           "10.0.0.1" "/srv/f34"); reflexivity.
Defined.

Lemma nfs_source_needs_one_colon
    (raw_data rest line : string) (table : gmap string value) :
  table !! "tree" = Some (VStr ("nfs://" +:+ rest)) ->
  count_char ":"%char rest <> 1%nat ->
  line ∈ PyStr.split raw_data NL ->
  has_url_markers line = true ->
  cheetah_source raw_data table
  = inl (CX ("Invalid syntax for NFS path given during import: nfs://" +:+ rest)).
Proof.
  intros Htree Hc Hin Hm. unfold cheetah_source. rewrite Htree.
  unfold PyStr.startswith. rewrite PyStrFacts.prefix_app.
  rewrite NfsFacts.alias_lines.
  rewrite (NfsFacts.nfs_loop_fails ("nfs://" +:+ rest)
             (CX ("Invalid syntax for NFS path given during import: nfs://" +:+ rest))
             _ (alias line)); [done | | |].
  - intros l Hl. by apply nfs_line_bad_path.
  - apply list_elem_of_fmap. by exists line.
  - by rewrite NfsFacts.alias_markers.
Qed.

(** X11.  The rewrite accepts a path only if exactly one colon follows
    "nfs://": with none, or with two or more (a port, an IPv6 address), a
    template that passes the import check and has a line with both markers
    makes [render_cheetah] raise [CX] about the syntax of the NFS path, and
    the state is the one the call started in: the context is untouched and
    nothing is read, compiled or run. *)
Theorem nfs_rewrite_needs_one_colon
    (rt : Runtime) (self : Templar) (raw_data rest line : string)
    (search_table : loc) (σ : state) :
  check_lines self (PyStr.split raw_data NL) = None ->
  deref (heap σ) search_table !! "tree" = Some (VStr ("nfs://" +:+ rest)) ->
  count_char ":"%char rest <> 1%nat ->
  line ∈ PyStr.split raw_data NL ->
  has_url_markers line = true ->
  render_cheetah rt self raw_data search_table σ
  = (Raise (CX ("Invalid syntax for NFS path given during import: nfs://" +:+ rest)), σ).
Proof.
  intros Hcheck Htree Hc Hin Hm.
  unfold render_cheetah, check_for_invalid_imports. run_monad.
  rewrite Hcheck. cbn [heap last_errors events].
  by rewrite (nfs_source_needs_one_colon raw_data rest line _ Htree Hc Hin Hm).
Qed.

Lemma nfs_rewrite_needs_one_colon_witness :
  render_cheetah echo_runtime demo_templar "url --url=x" 1%positive
    (one_dict {[ "tree" := VStr ("nfs://" +:+ "[fe80::1]:/srv") ]})
  = (Raise (CX ("Invalid syntax for NFS path given during import: nfs://"
                +:+ "[fe80::1]:/srv")),
     one_dict {[ "tree" := VStr ("nfs://" +:+ "[fe80::1]:/srv") ]}).
Proof.
  apply (nfs_rewrite_needs_one_colon echo_runtime demo_templar "url --url=x"
           "[fe80::1]:/srv" "url --url=x" 1%positive
           (one_dict {[ "tree" := VStr ("nfs://" +:+ "[fe80::1]:/srv") ]})).
  - by vm_compute.
  - by vm_compute.
  - by vm_compute.
  - by_eval.
  - by vm_compute.
Defined.

Lemma concat_lines_join (l : list string) :
  l <> [] -> concat_lines l = PyStr.join NL l +:+ NL.
Proof.
  induction l as [|x l IH]; [done |]. intros _.
  destruct l as [|y l]; [done |].
  cbn [concat_lines] in *. rewrite IH by done.
  rewrite PyStrFacts.join_cons_cons. by rewrite !PyStrFacts.app_assoc.
Qed.

Lemma concat_lines_split (s : string) :
  concat_lines (PyStr.split s NL) = s +:+ NL.
Proof.
  rewrite concat_lines_join by (by rewrite (PyStrFacts.split_cons s NL)).
  by rewrite PyStrFacts.join_split.
Qed.

(** X12.  With an nfs:// [tree], well-formed or not, a template that has no
    line with both markers is never refused: the source is the error
    catcher directive, the template with its aliases replaced, and one
    added newline at the end. *)
Theorem nfs_tree_without_url_line
    (raw_data tree : string) (table : gmap string value) :
  table !! "tree" = Some (VStr tree) ->
  PyStr.startswith tree "nfs://" = true ->
  (forall line, line ∈ PyStr.split raw_data NL -> has_url_markers line = false) ->
  cheetah_source raw_data table
  = inr ("#errorCatcher ListErrors" +:+ NL +:+ alias raw_data +:+ NL).
Proof.
  intros Htree Hstart Hno.
  rewrite (nfs_source_rewritten _ _ _ alias Htree Hstart).
  - rewrite <- NfsFacts.alias_lines. by rewrite concat_lines_split.
  - intros line Hin. unfold nfs_line.
    by rewrite NfsFacts.alias_markers, (Hno line Hin).
Qed.

Lemma nfs_tree_without_url_line_witness :
  cheetah_source ("lang TEMPLATE::lang" +:+ NL +:+ "url --mirrorlist=x")
    {[ "tree" := VStr "nfs://nowhere" ]}
  = inr ("#errorCatcher ListErrors" +:+ NL
         +:+ alias ("lang TEMPLATE::lang" +:+ NL +:+ "url --mirrorlist=x") +:+ NL).
Proof.
  apply (nfs_tree_without_url_line ("lang TEMPLATE::lang" +:+ NL +:+ "url --mirrorlist=x")
           "nfs://nowhere").
  - reflexivity.
  - reflexivity.
  - intros line Hin.
    change (PyStr.split ("lang TEMPLATE::lang" +:+ NL +:+ "url --mirrorlist=x") NL)
      with ["lang TEMPLATE::lang"; "url --mirrorlist=x"] in Hin.
    apply elem_of_cons in Hin as [-> | Hin]; [reflexivity |].
    apply list_elem_of_singleton in Hin as ->. reflexivity.
Defined.

(** ** The alias never reaches the compiler *)

Lemma found_skip_head (e : ascii) (m a x : string) :
  PyStr.mem_char e a = false ->
  found (String e m) (a +:+ x) = found (String e m) x.
Proof.
  induction a as [|d a IH]; intros He; [done |].
  cbn [PyStr.mem_char] in He. apply orb_false_iff in He as [Hed%Ascii.eqb_neq Ha].
  change (String d a +:+ x) with (String d (a +:+ x)). cbn [found].
  rewrite AliasFacts.prefix_head_mismatch by done. by apply IH.
Qed.

Section ReplaceRemoves.

Variables old new : string.
Hypothesis old_nonempty : old <> "".
Hypothesis new_nonempty : new <> "".
Hypothesis old_avoids_new : no_char_of old new = true.

(** What the replaced text starts with, short of the replacement, the
    original started with. *)
Lemma prefix_replace_back (u s : string) :
  no_char_of u new = true ->
  String.prefix u (PyStr.replace_go old new s 0) = true ->
  String.prefix u s = true.
Proof.
  revert s. induction u as [|e u IH]; intros s Hu Hp; [apply PyStrFacts.prefix_nil |].
  cbn [no_char_of] in Hu. apply andb_true_iff in Hu as [He%negb_true_iff Hu].
  destruct s as [|d s]; [done |].
  destruct (String.prefix old (String d s)) eqn:Hold.
  - destruct (PyStrFacts.prefix_inv _ _ Hold) as [r Hr]. rewrite Hr in Hp.
    rewrite PyStrFacts.replace_go_hit in Hp by done.
    destruct new as [|n new']; [done |].
    change (String n new' +:+ ?x) with (String n (new' +:+ x)) in Hp.
    rewrite AliasFacts.prefix_head_mismatch in Hp; [done |].
    eapply AliasFacts.not_mem_char_ne; [exact He | apply AliasFacts.mem_char_head].
  - rewrite PyStrFacts.replace_go_miss in Hp by done.
    cbn [String.prefix] in Hp |- *. destruct (ascii_dec e d); [| done].
    by apply IH.
Qed.

Lemma old_head_not_in_new (o : ascii) (old' : string) :
  old = String o old' -> PyStr.mem_char o new = false /\ no_char_of old' new = true.
Proof.
  intros Hold. pose proof old_avoids_new as Hav. rewrite Hold in Hav.
  cbn [no_char_of] in Hav. by apply andb_true_iff in Hav as [Ho%negb_true_iff Hrest].
Qed.

Lemma replace_removes (s : string) :
  found old (PyStr.replace_go old new s 0) = false.
Proof.
  assert (exists o old', old = String o old') as (o & old' & Hold)
    by (destruct old; [done | by eexists _, _]).
  destruct (old_head_not_in_new o old' Hold) as [Ho Hrest].
  revert s.
  apply (PyStrFacts.scan_ind old); [done | | intros r IH | intros c s Hp IH].
  - rewrite Hold. reflexivity.
  - rewrite PyStrFacts.replace_go_hit by done.
    rewrite Hold at 1. rewrite found_skip_head by done. by rewrite <- Hold.
  - rewrite PyStrFacts.replace_go_miss by done. cbn [found]. rewrite IH, orb_false_r.
    destruct (String.prefix old (String c (PyStr.replace_go old new s 0))) eqn:Hq;
      [| done].
    exfalso. rewrite Hold in Hq at 1. rewrite Hold in Hp at 1.
    cbn [String.prefix] in Hq, Hp.
    destruct (ascii_dec o c); [| done].
    apply prefix_replace_back in Hq; [congruence | done].
Qed.

End ReplaceRemoves.

(** X13.  When the context has no nfs:// tree, the source handed to the
    Cheetah compiler is the error catcher directive followed by the
    template with every TEMPLATE:: replaced by $, and the text TEMPLATE::
    occurs nowhere in it: the replacement leaves none behind and makes no
    new one. *)
Theorem alias_never_compiled
    (raw_data : string) (table : gmap string value) :
  table !! "tree" = None \/
  (exists tree, table !! "tree" = Some (VStr tree) /\
                PyStr.startswith tree "nfs://" = false) ->
  cheetah_source raw_data table
  = inr ("#errorCatcher ListErrors" +:+ NL +:+ alias raw_data) /\
  found "TEMPLATE::" ("#errorCatcher ListErrors" +:+ NL +:+ alias raw_data) = false.
Proof.
  intros Htree. split.
  - unfold cheetah_source, alias.
    destruct Htree as [-> | (tree & -> & ->)]; reflexivity.
  - change ("#errorCatcher ListErrors" +:+ NL +:+ alias raw_data)
      with (("#errorCatcher ListErrors" +:+ NL) +:+ alias raw_data).
    rewrite found_skip_head by reflexivity.
    by apply replace_removes.
Qed.

Lemma alias_never_compiled_witness :
  cheetah_source "TEMPLATE:TEMPLATE::::x" {[ "tree" := VStr "http://mirror/f34" ]}
  = inr ("#errorCatcher ListErrors" +:+ NL +:+ alias "TEMPLATE:TEMPLATE::::x") /\
  found "TEMPLATE::" ("#errorCatcher ListErrors" +:+ NL +:+ alias "TEMPLATE:TEMPLATE::::x")
  = false.
Proof.
  apply (alias_never_compiled "TEMPLATE:TEMPLATE::::x"
           {[ "tree" := VStr "http://mirror/f34" ]}).
  right. exists "http://mirror/f34". split; reflexivity.
Defined.

(** ** [render_cheetah]: how a run ends *)

Section CheetahRun.

Variable rt : Runtime.
Variable self : Templar.
Variables (raw_data source : string) (search_table : loc) (σ : state).

Hypothesis check_passes : check_lines self (PyStr.split raw_data NL) = None.
Hypothesis source_ready :
  cheetah_source raw_data (deref (heap σ) search_table) = inr source.

(** Up to the reading of the macro file. *)
Lemma render_cheetah_macros_unreadable_aux (e : exn) :
  macros_file rt = inl e ->
  render_cheetah rt self raw_data search_table σ
  = (Raise e,
     State (with_universe (heap σ) search_table) (last_errors σ)
           (events σ ++ [ReadMacros])).
Proof.
  intros Hm. unfold render_cheetah, check_for_invalid_imports. run_monad.
  rewrite check_passes. cbn [heap last_errors events].
  rewrite source_ready, Hm. cbn [heap last_errors events].
  unfold with_universe. by rewrite deref_after_copy.
Qed.

Variables (macros : string) (version : Z * Z * Z).

Hypothesis macros_read : macros_file rt = inr macros.
Hypothesis macros_compile : compile_macros rt macros = None.
Hypothesis template_compiles : compile_template rt source macros = None.
Hypothesis version_known : cheetah_version rt = inr version.

(** X14.  When the compiled template raises while it is instantiated or
    printed, [render_cheetah] does not pass the exception on: it logs the
    engine's report of it as an error and raises [CX] with a fixed message.
    The errors of an earlier render stay in [last_errors], and the store is
    the one the template left when it raised ([h']), which it was given
    with [template_universe] in the context. *)
Theorem cheetah_run_failure_becomes_CX (e : exn) (h' : gmap loc (gmap string value)) :
  run_template rt source macros (version_at_least_2_4_2 version)
    (with_universe (heap σ) search_table) search_table = (inl e, h') ->
  render_cheetah rt self raw_data search_table σ
  = (Raise (CX "Error templating file, check cobbler.log for more details"),
     State h' (last_errors σ)
           (events σ ++ [ReadMacros; CompileMacros macros; CompileTemplate source;
                         RunTemplate; LogError (cheetah_exc rt e)])).
Proof.
  intros Hrun.
  rewrite (render_cheetah_run rt self raw_data source macros search_table σ version)
    by done.
  cbn zeta. by rewrite Hrun.
Qed.

(** X15.  The errors the template's error catcher lists do not fail the
    render: the text is returned, the errors replace [last_errors], and two
    warnings are logged, the fixed one and the listing; a run without
    errors logs nothing and empties [last_errors].  The store is the one
    the template left ([h']). *)
Theorem cheetah_listed_errors_are_kept (data_out : string) (errors : list string)
    (h' : gmap loc (gmap string value)) :
  run_template rt source macros (version_at_least_2_4_2 version)
    (with_universe (heap σ) search_table) search_table = (inr (data_out, errors), h') ->
  render_cheetah rt self raw_data search_table σ
  = (Ok data_out,
     State h' errors
           (events σ ++ [ReadMacros; CompileMacros macros; CompileTemplate source;
                         RunTemplate]
            ++ if bool_decide (errors = [])
               then []
               else [LogWarning "errors were encountered rendering the template";
                     LogWarning (NL +:+ pformat rt errors)])).
Proof.
  intros Hrun.
  rewrite (render_cheetah_run rt self raw_data source macros search_table σ version)
    by done.
  cbn zeta. rewrite Hrun. cbn [fst snd].
  by destruct errors.
Qed.

End CheetahRun.

(** X16.  When the macro file cannot be read, the exception of the read is
    passed on as it is, nothing is compiled and nothing is logged; the
    context has been changed all the same: it holds [template_universe]. *)
Theorem cheetah_macros_unreadable
    (rt : Runtime) (self : Templar) (raw_data source : string) (search_table : loc)
    (σ : state) (e : exn) :
  check_lines self (PyStr.split raw_data NL) = None ->
  cheetah_source raw_data (deref (heap σ) search_table) = inr source ->
  macros_file rt = inl e ->
  render_cheetah rt self raw_data search_table σ
  = (Raise e,
     State (with_universe (heap σ) search_table) (last_errors σ)
           (events σ ++ [ReadMacros])) /\
  deref (with_universe (heap σ) search_table) search_table !! "template_universe"
  = Some (VDict (fresh (dom (heap σ)))).
Proof.
  intros Hc Hs Hm. split; [by eapply render_cheetah_macros_unreadable_aux |].
  by rewrite deref_with_universe, lookup_insert_eq.
Qed.

Lemma cheetah_run_failure_becomes_CX_witness :
  render_cheetah broken_cheetah_runtime demo_templar "$distro" 1%positive (one_dict ∅)
  = (Raise (CX "Error templating file, check cobbler.log for more details"),
     State (with_universe (heap (one_dict ∅)) 1%positive) (last_errors (one_dict ∅))
           (events (one_dict ∅)
            ++ [ReadMacros; CompileMacros "";
                CompileTemplate ("#errorCatcher ListErrors" +:+ NL +:+ "$distro");
                RunTemplate;
                LogError (cheetah_exc broken_cheetah_runtime
                            (Foreign "NotFound" "cannot find 'distro'"))])).
Proof.
  refine (cheetah_run_failure_becomes_CX broken_cheetah_runtime demo_templar "$distro"
            ("#errorCatcher ListErrors" +:+ NL +:+ "$distro") 1%positive (one_dict ∅)
            _ _ "" (3, 2, 6) _ _ _ _
            (Foreign "NotFound" "cannot find 'distro'")
            (with_universe (heap (one_dict ∅)) 1%positive) _);
    by vm_compute.
Defined.

Lemma cheetah_listed_errors_are_kept_witness :
  render_cheetah listing_cheetah_runtime demo_templar "$distro" 1%positive (one_dict ∅)
  = (Ok ("#errorCatcher ListErrors" +:+ NL +:+ "$distro"),
     State (with_universe (heap (one_dict ∅)) 1%positive) ["cannot find 'distro'"]
           (events (one_dict ∅)
            ++ [ReadMacros; CompileMacros "";
                CompileTemplate ("#errorCatcher ListErrors" +:+ NL +:+ "$distro");
                RunTemplate]
            ++ if bool_decide (["cannot find 'distro'"] = [])
               then []
               else [LogWarning "errors were encountered rendering the template";
                     LogWarning (NL +:+ pformat listing_cheetah_runtime
                                           ["cannot find 'distro'"])])).
Proof.
  refine (cheetah_listed_errors_are_kept listing_cheetah_runtime demo_templar "$distro"
            ("#errorCatcher ListErrors" +:+ NL +:+ "$distro") 1%positive (one_dict ∅)
            _ _ "" (3, 2, 6) _ _ _ _
            ("#errorCatcher ListErrors" +:+ NL +:+ "$distro") ["cannot find 'distro'"]
            (with_universe (heap (one_dict ∅)) 1%positive) _);
    by vm_compute.
Defined.

Lemma cheetah_macros_unreadable_witness :
  render_cheetah no_macros_runtime demo_templar "text" 1%positive (one_dict ∅)
  = (Raise (Foreign "FileNotFoundError" "/etc/cobbler/cheetah_macros"),
     State (with_universe (heap (one_dict ∅)) 1%positive) (last_errors (one_dict ∅))
           (events (one_dict ∅) ++ [ReadMacros])) /\
  deref (with_universe (heap (one_dict ∅)) 1%positive) 1%positive !! "template_universe"
  = Some (VDict (fresh (dom (heap (one_dict ∅))))).
Proof.
  apply (cheetah_macros_unreadable no_macros_runtime demo_templar "text"
           ("#errorCatcher ListErrors" +:+ NL +:+ "text") 1%positive (one_dict ∅)
           (Foreign "FileNotFoundError" "/etc/cobbler/cheetah_macros"));
    by vm_compute.
Defined.

(** ** What a render leaves alone *)

Section Frames.

Variable rt : Runtime.
Variable self : Templar.

Lemma post_filter_last_errors (data_out : string) (search_table : loc)
      (out_path : option string) (σ σ' : state) (r : result string) :
  post_filter rt self data_out search_table out_path σ = (r, σ') ->
  last_errors σ' = last_errors σ.
Proof.
  unfold post_filter, set_http_server, write_out. run_monad. intros H.
  destruct σ as [h le ev]. cbn [heap last_errors events] in *.
  repeat (case_match; simplify_eq/=); eauto.
Qed.

Lemma render_jinja2_last_errors (raw_data : string) (search_table : loc)
      (σ σ' : state) (r : result string) :
  render_jinja2 rt self raw_data search_table σ = (r, σ') ->
  last_errors σ' = last_errors σ.
Proof.
  unfold render_jinja2. run_monad. intros H.
  repeat (case_match; simplify_eq/=); eauto.
Qed.

Hypothesis engines_read_only : read_only rt.

(** The store after [render_with], in each of the ways it can end, when the
    templates only read their variables. *)
Lemma render_with_store (template_type raw_data : string) (search_table : loc)
      (out_path : option string) (σ σ' : state) (r : result string) :
  render_with rt self template_type raw_data search_table out_path σ = (r, σ') ->
  let h := heap σ in
  let hu := with_universe (heap σ) search_table in
  heap σ' = h \/ heap σ' = hu \/
  (exists v, heap σ' = <[search_table := <["http_server" := v]> (deref h search_table)]> h) \/
  (exists v, heap σ' = <[search_table := <["http_server" := v]> (deref hu search_table)]> hu).
Proof.
  destruct engines_read_only as [Hcheetah Hjinja].
  unfold render_with, mbind, M_bind, mret, M_ret.
  destruct (String.eqb template_type "cheetah").
  { destruct (render_cheetah _ _ _ _ _) as [[data_out|e] σ1] eqn:Hrc.
    - apply render_cheetah_store in Hrc
        as [(_ & e & [=]) | [(_ & e & [=]) | (src & macros & rebound & Hh)]].
      rewrite Hcheetah in Hh.
      intros [(_ & -> & _) | (s & _ & ->)]%post_filter_store.
      + right; left. exact Hh.
      + right; right; right. rewrite Hh. by eexists.
    - intros [= <- <-].
      apply render_cheetah_store in Hrc
        as [(-> & _) | [(Hh & _) | (src & macros & rebound & Hh)]];
        [by left | by right; left |].
      rewrite Hcheetah in Hh. by right; left. }
  destruct (String.eqb template_type "jinja2"); [| intros [= _ <-]; by left].
  destruct (jinja2_available rt); [| intros [= _ <-]; by left].
  destruct (render_jinja2 _ _ _ _ _) as [[data_out|e] σ1] eqn:Hrj.
  - apply render_jinja2_store in Hrj as [Hh _]. rewrite Hjinja in Hh.
    intros [(_ & -> & _) | (s & _ & ->)]%post_filter_store.
    + by left.
    + right; right; left. rewrite Hh. by eexists.
  - apply render_jinja2_store in Hrj as [_ [? [=]]].
Qed.

Lemma render_store (data_input : string) (search_table : loc)
      (out_path : option string) (template_type : string) (σ σ' : state)
      (r : result string) :
  render rt self data_input search_table out_path template_type σ = (r, σ') ->
  let h := heap σ in
  let hu := with_universe (heap σ) search_table in
  heap σ' = h \/ heap σ' = hu \/
  (exists v, heap σ' = <[search_table := <["http_server" := v]> (deref h search_table)]> h) \/
  (exists v, heap σ' = <[search_table := <["http_server" := v]> (deref hu search_table)]> hu).
Proof.
  unfold render. destruct (supported template_type); cbn [negb];
    [| intros [= _ <-]; by left].
  unfold mbind, M_bind.
  destruct (select_engine self data_input template_type) as [e | [engine source]];
    cbn [lift]; [intros [= _ <-]; by left |].
  unfold mret, M_ret. apply render_with_store.
Qed.

End Frames.

Lemma with_universe_frame (h : gmap loc (gmap string value)) (l0 : loc) :
  (forall k, k <> "template_universe" ->
             deref (with_universe h l0) l0 !! k = deref h l0 !! k) /\
  (forall l d, h !! l = Some d -> l <> l0 -> with_universe h l0 !! l = Some d).
Proof.
  split.
  - intros k Hk. by rewrite deref_with_universe, lookup_insert_ne.
  - intros l d Hl Hne. unfold with_universe.
    rewrite lookup_insert_ne by done. rewrite lookup_insert_ne; [done |].
    intros <-. by rewrite (not_elem_of_dom_1 h (fresh (dom h)) (is_fresh _)) in Hl.
Qed.

Lemma http_server_frame (h : gmap loc (gmap string value)) (l0 : loc) (v : value) :
  (forall k, k <> "http_server" ->
             deref (<[l0 := <["http_server" := v]> (deref h l0)]> h) l0 !! k
             = deref h l0 !! k) /\
  (forall l d, h !! l = Some d -> l <> l0 ->
               (<[l0 := <["http_server" := v]> (deref h l0)]> h) !! l = Some d).
Proof.
  split.
  - intros k Hk. by rewrite deref_insert_eq, lookup_insert_ne.
  - intros l d Hl Hne. by rewrite lookup_insert_ne.
Qed.

(** X17.  What [render] itself writes.  When the templates only read their
    variables (the engines leave the store as they find it), a render,
    however it ends, has touched two keys of the context at most: every key
    but [http_server] and [template_universe] has the value it had, and
    every other dictionary that was in the store is as it was. *)
Theorem render_keeps_the_rest
    (rt : Runtime) (self : Templar) (data_input : string) (search_table : loc)
    (out_path : option string) (template_type : string) (σ σ' : state)
    (r : result string) :
  read_only rt ->
  render rt self data_input search_table out_path template_type σ = (r, σ') ->
  (forall k, k <> "http_server" -> k <> "template_universe" ->
             deref (heap σ') search_table !! k = deref (heap σ) search_table !! k) /\
  (forall l d, heap σ !! l = Some d -> l <> search_table -> heap σ' !! l = Some d).
Proof.
  intros Hro Hrun.
  destruct (with_universe_frame (heap σ) search_table) as [Hu1 Hu2].
  apply render_store in Hrun as [-> | [-> | [[v ->] | [v ->]]]]; [| | | | exact Hro].
  - done.
  - split; [intros k _ Hk; by apply Hu1 | exact Hu2].
  - destruct (http_server_frame (heap σ) search_table v) as [H1 H2].
    split; [intros k Hk _; by apply H1 | exact H2].
  - destruct (http_server_frame (with_universe (heap σ) search_table) search_table v)
      as [H1 H2].
    split.
    + intros k Hk Hk'. rewrite H1 by done. by apply Hu1.
    + intros l d Hl Hne. apply H2; [by apply Hu2 | done].
Qed.

Lemma render_keeps_the_rest_witness :
  let σ := State {[ 1%positive := {[ "server" := VStr "h1"; "distro" := VDict 2%positive ]};
                    2%positive := {[ "arch" := VStr "x86_64" ]} ]} [] [] in
  let σ' := (render echo_runtime demo_templar "x" 1%positive None "default" σ).2 in
  (forall k, k <> "http_server" -> k <> "template_universe" ->
             deref (heap σ') 1%positive !! k = deref (heap σ) 1%positive !! k) /\
  (forall l d, heap σ !! l = Some d -> l <> 1%positive -> heap σ' !! l = Some d).
Proof.
  intros σ σ'.
  apply (render_keeps_the_rest echo_runtime demo_templar "x" 1%positive None "default"
           σ σ' (render echo_runtime demo_templar "x" 1%positive None "default" σ).1).
  - split; reflexivity.
  - apply surjective_pairing.
Defined.

(** The hypothesis is needed: a template that assigns to its variables
    changes other keys of the caller's context. *)
Example render_with_writing_template :
  let σ := one_dict {[ "server" := VStr "h1" ]} in
  let σ' := (render writing_runtime demo_templar "x" 1%positive None "jinja2" σ).2 in
  deref (heap σ') 1%positive !! "server" = Some (VStr "changed") /\
  deref (heap σ') 1%positive !! "extra" = Some (VInt 1).
Proof. by vm_compute. Qed.

(** X18.  A render through the Jinja2 engine injects no [template_universe]
    and makes no copy: the engine runs on the store as the caller has it,
    and to the store the engine leaves ([h]) [render] only adds the
    context's [http_server] (nothing when no settings are configured, and
    the store is not touched at all when Jinja2 is not installed).  It
    leaves [last_errors] alone, so the errors read there afterwards are
    those of the last Cheetah run. *)
Theorem jinja2_render_touches_http_server_only
    (rt : Runtime) (self : Templar) (data_input source : string) (search_table : loc)
    (out_path : option string) (template_type : string) (σ σ' : state)
    (r : result string) :
  supported template_type = true ->
  select_engine self data_input template_type = inr ("jinja2", source) ->
  render rt self data_input search_table out_path template_type σ = (r, σ') ->
  last_errors σ' = last_errors σ /\
  let h := (jinja2_run rt (includedir self) source (heap σ) search_table).2 in
  heap σ'
  = if jinja2_available rt then
      match settings self with
      | Some s =>
          <[search_table :=
              <["http_server" := http_server_of rt s h (deref h search_table)]>
                (deref h search_table)]> h
      | None => h
      end
    else heap σ.
Proof.
  intros Hsup Hsel. unfold render. rewrite Hsup, Hsel. cbn [negb].
  unfold mbind, M_bind. cbn [lift]. unfold mret, M_ret, render_with.
  cbn [String.eqb Ascii.eqb Bool.eqb]. unfold mbind, M_bind, mret, M_ret.
  destruct (jinja2_available rt); [| by intros [= _ <-]].
  destruct (render_jinja2 _ _ _ _ _) as [[data_out|e] σ1] eqn:Hrj.
  - pose proof (render_jinja2_last_errors _ _ _ _ _ _ _ Hrj) as Hle.
    apply render_jinja2_store in Hrj as [Hh _].
    intros Hpf. split.
    + apply post_filter_last_errors in Hpf. congruence.
    + cbn zeta. rewrite <- Hh.
      apply post_filter_store in Hpf as [(-> & -> & _) | (s & -> & ->)]; done.
  - apply render_jinja2_store in Hrj as [_ [? [=]]].
Qed.

Lemma jinja2_render_touches_http_server_only_witness :
  let σ := State {[ 1%positive := {[ "server" := VStr "h1" ]} ]} ["an old error"] [] in
  let σ' := (render writing_runtime demo_templar ("#template=jinja2" +:+ NL +:+ "x")
               1%positive None "cheetah" σ).2 in
  last_errors σ' = last_errors σ /\
  let h := (jinja2_run writing_runtime (includedir demo_templar) "x" (heap σ)
              1%positive).2 in
  heap σ'
  = if jinja2_available writing_runtime then
      match settings demo_templar with
      | Some s =>
          <[1%positive :=
              <["http_server" := http_server_of writing_runtime s h (deref h 1%positive)]>
                (deref h 1%positive)]> h
      | None => h
      end
    else heap σ.
Proof.
  intros σ σ'.
  apply (jinja2_render_touches_http_server_only writing_runtime demo_templar
           ("#template=jinja2" +:+ NL +:+ "x") "x" 1%positive None "cheetah" σ σ'
           (render writing_runtime demo_templar ("#template=jinja2" +:+ NL +:+ "x")
              1%positive None "cheetah" σ).1).
  - reflexivity.
  - reflexivity.
  - apply surjective_pairing.
Defined.




(** X20.  A Templar without settings cannot finish a render: when an engine
    is selected and runs, the call raises, whatever the template and the
    context; if the engine itself returned, what is raised is the
    [AttributeError] of [self.settings.server]. *)
Theorem render_without_settings_raises
    (rt : Runtime) (self : Templar) (data_input engine source : string)
    (search_table : loc) (out_path : option string) (template_type : string)
    (σ σ' : state) (r : result string) :
  settings self = None ->
  supported template_type = true ->
  select_engine self data_input template_type = inr (engine, source) ->
  engine = "cheetah" \/ (engine = "jinja2" /\ jinja2_available rt = true) ->
  render rt self data_input search_table out_path template_type σ = (r, σ') ->
  exists e,
    r = Raise e /\
    (engine = "jinja2" ->
     e = AttributeError "'NoneType' object has no attribute 'server'").
Proof.
  intros Hs Hsup Hsel Heng. unfold render. rewrite Hsup, Hsel. cbn [negb].
  unfold render_with, mbind, M_bind, mret, M_ret. cbn [lift]. unfold mret, M_ret.
  assert (forall data_out σ1,
            post_filter rt self data_out search_table out_path σ1
            = (Raise (AttributeError "'NoneType' object has no attribute 'server'"), σ1))
    as Hpf.
  { intros data_out σ1. unfold post_filter, set_http_server. run_monad.
    by rewrite Hs. }
  destruct Heng as [-> | [-> Hav]]; cbn [String.eqb Ascii.eqb Bool.eqb].
  - destruct (render_cheetah _ _ _ _ _) as [[data_out|e] σ1].
    + rewrite Hpf. intros [= <- _]. by eexists.
    + intros [= <- _]. by eexists.
  - rewrite Hav.
    destruct (render_jinja2 _ _ _ _ _) as [[data_out|e] σ1] eqn:Hrj.
    + rewrite Hpf. intros [= <- _]. by eexists.
    + apply render_jinja2_store in Hrj as [_ [? [=]]].
Qed.

Lemma render_without_settings_raises_witness :
  exists e,
    (render echo_runtime {| settings := None |} "plain text" 1%positive None "jinja2"
       (one_dict ∅)).1 = Raise e /\
    ("jinja2" = "jinja2" ->
     e = AttributeError "'NoneType' object has no attribute 'server'").
Proof.
  apply (render_without_settings_raises echo_runtime {| settings := None |} "plain text"
           "jinja2" "plain text" 1%positive None "jinja2" (one_dict ∅)
           (render echo_runtime {| settings := None |} "plain text" 1%positive None
              "jinja2" (one_dict ∅)).2).
  - reflexivity.
  - reflexivity.
  - reflexivity.
  - right. split; reflexivity.
  - apply surjective_pairing.
Defined.

(** ** The collection manager *)

Ltac run_manager :=
  unfold Manager.init, Manager.load, Manager.accessor, Manager.member, Manager.make,
    Manager.seq, Manager.bind, Manager.update, Manager.ret, Manager.fail in *.

Lemma manager_load_sets_flag (col : Manager.Collaborators) (the_api : Manager.obj)
      (w w' : Manager.world) (r : result unit) :
  Manager.load col the_api w = (r, w') ->
  Manager.has_loaded (Manager.cls w') = true.
Proof.
  run_manager. intros H. destruct w as [[hl it ci ap mem] cs].
  cbn [Manager.cls Manager.calls Manager.has_loaded Manager.init_time
       Manager.current_id Manager.api Manager.members] in *.
  repeat (case_match; simplify_eq/=); reflexivity.
Qed.

Lemma manager_init_sets_flag (col : Manager.Collaborators) (the_api : Manager.obj)
      (w w' : Manager.world) (r : result unit) :
  Manager.init col the_api w = (r, w') ->
  Manager.has_loaded (Manager.cls w') = true.
Proof.
  intros Hinit. unfold Manager.init in Hinit.
  destruct (Manager.has_loaded (Manager.cls w)) eqn:Hl.
  - by injection Hinit as _ <-.
  - by eapply manager_load_sets_flag.
Qed.

(** X21.  The members are made once for the whole process.  After any
    construction of a manager, also one whose load raised, [has_loaded] is
    set, and every later construction, with whatever api, returns at once
    and changes nothing: no member is made again and the api, the time and
    the counter of the first load stay. *)
Theorem manager_is_loaded_once
    (col : Manager.Collaborators) (the_api : Manager.obj) (w w' : Manager.world)
    (r : result unit) :
  Manager.init col the_api w = (r, w') ->
  Manager.has_loaded (Manager.cls w') = true /\
  forall col' api', Manager.init col' api' w' = (Ok tt, w').
Proof.
  intros Hinit.
  pose proof (manager_init_sets_flag _ _ _ _ _ Hinit) as Hflag.
  split; [exact Hflag |].
  intros col' api'. unfold Manager.init. by rewrite Hflag.
Qed.

Lemma manager_is_loaded_once_witness :
  Manager.has_loaded
    (Manager.cls (Manager.init Manager.bad_profiles 100%positive Manager.pristine).2)
  = true /\
  forall col' api',
    Manager.init col' api' (Manager.init Manager.bad_profiles 100%positive Manager.pristine).2
    = (Ok tt, (Manager.init Manager.bad_profiles 100%positive Manager.pristine).2).
Proof.
  apply (manager_is_loaded_once Manager.bad_profiles 100%positive Manager.pristine _
           (Manager.init Manager.bad_profiles 100%positive Manager.pristine).1).
  apply surjective_pairing.
Defined.

(** X22.  A first load that raises is never repaired.  The settings are
    made last, so after a failed load there are none: [settings()] raises
    [AttributeError], and it goes on doing so however many managers are
    constructed afterwards. *)
Theorem manager_failed_load_has_no_settings
    (col : Manager.Collaborators) (the_api : Manager.obj) (w w' : Manager.world)
    (e : exn) :
  Manager.has_loaded (Manager.cls w) = false ->
  Manager.members (Manager.cls w) !! "_settings" = None ->
  Manager.init col the_api w = (Raise e, w') ->
  forall col' api',
    Manager.seq (Manager.init col' api') (Manager.accessor Manager.SettingsObject) w'
    = (Raise (AttributeError "'CollectionManager' object has no attribute '_settings'"),
       w').
Proof.
  intros Hl Hs Hinit col' api'.
  pose proof (manager_init_sets_flag _ _ _ _ _ Hinit) as Hflag.
  assert (Manager.init col' api' w' = (Ok tt, w')) as Hagain
    by (unfold Manager.init; by rewrite Hflag).
  assert (Manager.members (Manager.cls w') !! "_settings" = None) as Hnone.
  { unfold Manager.init in Hinit. rewrite Hl in Hinit. run_manager.
    destruct w as [[hl it ci ap mem] cs].
    cbn [Manager.cls Manager.calls Manager.has_loaded Manager.init_time
         Manager.current_id Manager.api Manager.members] in *.
    repeat (case_match; simplify_eq/=); by simplify_map_eq. }
  unfold Manager.seq, Manager.bind. rewrite Hagain.
  unfold Manager.accessor, Manager.member. cbn [Manager.attr_name].
  by rewrite Hnone.
Qed.

Lemma manager_failed_load_has_no_settings_witness :
  Manager.seq (Manager.init Manager.good 101%positive)
    (Manager.accessor Manager.SettingsObject)
    (Manager.init Manager.bad_profiles 100%positive Manager.pristine).2
  = (Raise (AttributeError "'CollectionManager' object has no attribute '_settings'"),
     (Manager.init Manager.bad_profiles 100%positive Manager.pristine).2).
Proof.
  refine (manager_failed_load_has_no_settings Manager.bad_profiles 100%positive
            Manager.pristine _ (Foreign "OSError" "no profiles") _ _ _
            Manager.good 101%positive).
  - reflexivity.
  - reflexivity.
  - by vm_compute.
Defined.

(** X23.  A first load that goes through makes the nine members in the
    order distros, repos, profiles, systems, images, mgmtclasses, packages,
    files, settings, each once; afterwards every member is there, the
    counter is 0 and the api and the time are those of this call. *)
Theorem manager_first_load
    (col : Manager.Collaborators) (the_api : Manager.obj) (w w' : Manager.world) :
  Manager.has_loaded (Manager.cls w) = false ->
  Manager.init col the_api w = (Ok tt, w') ->
  Manager.calls w' = (Manager.calls w ++ map Manager.Construct Manager.load_order)%list /\
  Manager.current_id (Manager.cls w') = Some 0 /\
  Manager.api (Manager.cls w') = Some the_api /\
  Manager.init_time (Manager.cls w') = Some (Manager.clock col) /\
  exists objects, Manager.loaded w' objects.
Proof.
  intros Hl Hinit. unfold Manager.init in Hinit. rewrite Hl in Hinit. run_manager.
  destruct w as [[hl it ci ap mem] cs].
  cbn [Manager.cls Manager.calls Manager.has_loaded Manager.init_time
       Manager.current_id Manager.api Manager.members] in *.
  repeat (case_match; simplify_eq/=).
  split; [by rewrite <- !(assoc_L (++)) |].
  do 3 (split; [reflexivity |]).
  match goal with
  | |- exists objects, Manager.loaded (Manager.World (Manager.ClassState _ _ _ _ ?m) _) _ =>
      exists (fun k => default 1%positive (m !! Manager.attr_name k))
  end.
  intros k. cbn [Manager.cls Manager.members].
  destruct k; cbn [Manager.attr_name]; by simplify_map_eq.
Qed.

Lemma manager_first_load_witness :
  let w' := (Manager.init Manager.good 100%positive Manager.pristine).2 in
  Manager.calls w'
  = (Manager.calls Manager.pristine ++ map Manager.Construct Manager.load_order)%list /\
  Manager.current_id (Manager.cls w') = Some 0 /\
  Manager.api (Manager.cls w') = Some 100%positive /\
  Manager.init_time (Manager.cls w') = Some (Manager.clock Manager.good) /\
  exists objects, Manager.loaded w' objects.
Proof.
  intros w'.
  apply (manager_first_load Manager.good 100%positive Manager.pristine w').
  - reflexivity.
  - by vm_compute.
Defined.

Section ManagerLoops.

Variable col : Manager.Collaborators.
Variable objects : Manager.kind -> Manager.obj.

Lemma manager_member_loaded (w : Manager.world) (k : Manager.kind) :
  Manager.loaded w objects ->
  Manager.member (Manager.attr_name k) w = (Ok (objects k), w).
Proof. intros H. unfold Manager.member. by rewrite (H k). Qed.









End ManagerLoops.

Lemma manager_numbered_loaded : Manager.loaded Manager.numbered_world Manager.number.
Proof. intros k. destruct k; by vm_compute. Qed.



(** X25.  [deserialize] builds the tuple of the nine members before it
    reads any of them: on a manager that lacks a member (as after a load
    that raised), it raises [AttributeError] for a missing member and the
    serializer is not called at all, also not for the members that are
    there. *)
Theorem manager_deserialize_needs_every_member
    (col : Manager.Collaborators) (w w' : Manager.world) (r : result unit)
    (missing : Manager.kind) :
  Manager.members (Manager.cls w) !! Manager.attr_name missing = None ->
  Manager.deserialize col w = (r, w') ->
  w' = w /\
  exists k,
    Manager.members (Manager.cls w) !! Manager.attr_name k = None /\
    r = Raise (AttributeError ("'CollectionManager' object has no attribute '"
                               +:+ Manager.attr_name k +:+ "'")).
Proof.
  intros Hmiss Hrun. unfold Manager.deserialize, Manager.bind, Manager.member in Hrun.
  repeat match type of Hrun with
         | context [Manager.members (Manager.cls w) !! ?name] =>
             let Hn := fresh "Hn" in
             destruct (Manager.members (Manager.cls w) !! name) eqn:Hn
         end.
  all: try (injection Hrun as <- <-; split; [reflexivity |]).
  1: destruct missing; cbn [Manager.attr_name] in Hmiss; congruence.
  - by exists Manager.Files.
  - by exists Manager.Packages.
  - by exists Manager.Mgmtclasses.
  - by exists Manager.Systems.
  - by exists Manager.Images.
  - by exists Manager.Profiles.
  - by exists Manager.Repos.
  - by exists Manager.Distros.
  - by exists Manager.SettingsObject.
Qed.

Lemma manager_deserialize_needs_every_member_witness :
  let w := (Manager.init Manager.bad_profiles 100%positive Manager.pristine).2 in
  let out := Manager.deserialize Manager.good w in
  out.2 = w /\
  exists k,
    Manager.members (Manager.cls w) !! Manager.attr_name k = None /\
    out.1 = Raise (AttributeError ("'CollectionManager' object has no attribute '"
                                   +:+ Manager.attr_name k +:+ "'")).
Proof.
  intros w out.
  apply (manager_deserialize_needs_every_member Manager.good w out.2 out.1
           Manager.Profiles).
  - by vm_compute.
  - apply surjective_pairing.
Defined.



(** X27.  On a manager whose nine members are there, [get_items] answers
    for exactly nine names, each with the member of its own kind: "distro"
    with the distros, "profile" with the profiles, "system" with the
    systems, "repo" with the repos, "image" with the images, "mgmtclass"
    with the mgmtclasses, "package" with the packages, "file" with the files
    and "settings" (in the plural) with the settings, which is in each case
    what the accessor of that kind returns.  For any other name it raises
    the [CX] that quotes the name.  It never changes the manager. *)
Theorem manager_get_items
    (objects : Manager.kind -> Manager.obj) (w : Manager.world) :
  Manager.loaded w objects ->
  Forall (fun '(name, k) =>
            Manager.get_items name w = (Ok (objects k), w) /\
            Manager.get_items name w = Manager.accessor k w)
    [("distro", Manager.Distros); ("profile", Manager.Profiles);
     ("system", Manager.Systems); ("repo", Manager.Repos);
     ("image", Manager.Images); ("mgmtclass", Manager.Mgmtclasses);
     ("package", Manager.Packages); ("file", Manager.Files);
     ("settings", Manager.SettingsObject)] /\
  forall the_type,
    (the_type ∉ Manager.item_types) ->
    Manager.get_items the_type w
    = (Raise (CX ("internal error, collection name " +:+ the_type +:+ " not supported")),
       w).
Proof.
  intros H. split.
  - repeat apply Forall_cons_2; [.. | apply Forall_nil_2];
      (split; [| reflexivity]);
      unfold Manager.get_items; cbn [String.eqb Ascii.eqb Bool.eqb];
      match goal with
      | |- Manager.member _ _ = (Ok (objects ?k), _) =>
          exact (manager_member_loaded objects w k H)
      end.
  - intros the_type Hnot. unfold Manager.item_types in Hnot.
    rewrite !not_elem_of_cons in Hnot.
    destruct Hnot as (H1 & H2 & H3 & H4 & H5 & H6 & H7 & H8 & H9 & _).
    unfold Manager.get_items.
    apply String.eqb_neq in H1 as ->. apply String.eqb_neq in H2 as ->.
    apply String.eqb_neq in H3 as ->. apply String.eqb_neq in H4 as ->.
    apply String.eqb_neq in H5 as ->. apply String.eqb_neq in H6 as ->.
    apply String.eqb_neq in H7 as ->. apply String.eqb_neq in H8 as ->.
    apply String.eqb_neq in H9 as ->.
    reflexivity.
Qed.

Lemma manager_get_items_witness :
  Forall (fun '(name, k) =>
            Manager.get_items name Manager.numbered_world
            = (Ok (Manager.number k), Manager.numbered_world) /\
            Manager.get_items name Manager.numbered_world
            = Manager.accessor k Manager.numbered_world)
    [("distro", Manager.Distros); ("profile", Manager.Profiles);
     ("system", Manager.Systems); ("repo", Manager.Repos);
     ("image", Manager.Images); ("mgmtclass", Manager.Mgmtclasses);
     ("package", Manager.Packages); ("file", Manager.Files);
     ("settings", Manager.SettingsObject)] /\
  forall the_type,
    (the_type ∉ Manager.item_types) ->
    Manager.get_items the_type Manager.numbered_world
    = (Raise (CX ("internal error, collection name " +:+ the_type +:+ " not supported")),
       Manager.numbered_world).
Proof.
  apply (manager_get_items Manager.number Manager.numbered_world).
  intros k. destruct k; by vm_compute.
Defined.
